(** * pyenv-parser: a shallow embedding of [src/pyenv_parser.py]

    The module under verification is one class, [Env], holding two
    dictionaries ([env_values], [custom_parsers]) and sixteen typed getters
    that all follow the same pattern: [_get] the raw text, run it through
    [_apply_custom_parser], convert.

    Conventions of the embedding:
    - a Python [str] is a Rocq [string] whose characters are read as code
      points below 256; the character classes ([str.strip] whitespace,
      [str.lower]) are those of Python on that range;
    - Python objects the getters handle are values of [pyval]; objects
      built by libraries outside the repository (floats, dates, UUIDs,
      paths, parsed URLs, images, enum members, decoded JSON) are opaque
      handles [VObj], produced and inspected only through the [Library]
      interface;
    - exceptions are explicit: a computation returns [Ok v] or [Raise e];
    - methods of [Env] run in a state-and-exception monad over the record
      [Env], so that mutation ([register_parser], direct assignment to
      [env_values]) and its absence (the getters) are both visible;
    - an override is a function [string -> result pyval]: it may return any
      object and may raise, but it has no side effect on the [Env]. *)

From Stdlib Require Import ZArith NArith Ascii String Bool List Lia ZifyNat.
From Stdlib.Strings Require Import Byte.
From Stdlib Require Import Decimal DecimalString DecimalZ.
From stdpp Require Import base option gmap strings.
Import ListNotations.

Set Warnings "-register-all".
Local Open Scope Z_scope.

(** ** Python values and exceptions *)

Inductive pyval :=
| VStr (s : string)
| VInt (n : Z)
| VBool (b : bool)
| VBytes (bs : list byte)
| VNone
| VList (items : list pyval)
| VDict (d : gmap string string)
| VObj (handle : N).

(** The texts of the [EnvParseError]s raised by the module, one constructor
    per f-string, carrying the interpolated fields. *)
Inductive message :=
| FileDoesNotExist (env_file : string)
| KeyNotFound (key : string)
| ParserNotCallable (key : string)
| NotValidInteger (v : pyval) (key : string)
| NotValidFloat (v : pyval) (key : string)
| NotValidBoolean (v : pyval) (key : string)
| NotValidDate (v : pyval) (key : string) (date_format : string)
| NotValidTimedelta (v : pyval) (key : string)
| NotValidUUID (v : pyval) (key : string)
| NotValidJSON (v : pyval) (key : string)
| NotValidURL (v : pyval) (key : string)
| NotValidEnum (v : pyval) (key : string) (enum_type : pyval)
| NotValidDict (v : pyval) (key : string)
| NotValidBase64 (v : pyval) (key : string)
| ImageLoadError (cause : exn)
| NotValidPort (v : pyval) (key : string)

with exn :=
| EnvParseError (m : message)
| ValueError
| JSONDecodeError
| BinasciiError
| TypeError
| AttributeError
| KeyError
| OtherException (name : string).

(** [except ValueError] also catches the subclasses [json.JSONDecodeError]
    and [binascii.Error]. *)
Definition is_ValueError (e : exn) : bool :=
  match e with
  | ValueError | JSONDecodeError | BinasciiError => true
  | _ => false
  end.

Definition is_JSONDecodeError (e : exn) : bool :=
  match e with JSONDecodeError => true | _ => false end.

Definition is_KeyError (e : exn) : bool :=
  match e with KeyError => true | _ => false end.

Definition is_Exception (e : exn) : bool := true.

Inductive result (A : Type) :=
| Ok (a : A)
| Raise (e : exn).
Arguments Ok {A} a.
Arguments Raise {A} e.

Definition rbind {A B} (r : result A) (k : A -> result B) : result B :=
  match r with
  | Ok a => k a
  | Raise e => Raise e
  end.

Definition rmap {A B} (f : A -> B) (r : result A) : result B :=
  rbind r (fun a => Ok (f a)).

(** [try: r except <class>: h] for a pure body. *)
Definition try_except {A} (r : result A) (caught : exn -> bool)
    (h : exn -> result A) : result A :=
  match r with
  | Ok a => Ok a
  | Raise e => if caught e then h e else Raise e
  end.

(** A callable stored in [custom_parsers], or anything else that was put
    there. *)
Inductive pyobject :=
| Callable (f : string -> result pyval)
| NotCallable (v : pyval).

Definition callable (o : pyobject) : bool :=
  match o with Callable _ => true | NotCallable _ => false end.

(** ** String primitives of Python used by the module *)

Module Py.

(** [str.isspace] on one character, code points below 256. *)
Definition isspace (c : ascii) : bool :=
  let n := N_of_ascii c in
  (((9 <=? n) && (n <=? 13)) || ((28 <=? n) && (n <=? 32))
   || (n =? 133) || (n =? 160))%N.

(** ASCII whitespace, as used when parsing [bytes]. *)
Definition isspace_ascii (c : ascii) : bool :=
  let n := N_of_ascii c in
  (((9 <=? n) && (n <=? 13)) || (n =? 32))%N.

Section Strip.
Variable space : ascii -> bool.

Fixpoint lstrip_with (s : string) : string :=
    match s with
    | EmptyString => EmptyString
    | String c s' => if space c then lstrip_with s' else s
    end.

Fixpoint rstrip_with (s : string) : string :=
    match s with
    | EmptyString => EmptyString
    | String c s' =>
        match rstrip_with s' with
        | EmptyString => if space c then EmptyString else String c EmptyString
        | r => String c r
        end
    end.

Definition strip_with (s : string) : string := rstrip_with (lstrip_with s).
End Strip.

Definition strip : string -> string := strip_with isspace.

(** [str.lower] on code points below 256: A-Z, and the Latin-1 capitals
    U+00C0..U+00DE except the multiplication sign U+00D7. *)
Definition lower_char (c : ascii) : ascii :=
  let n := N_of_ascii c in
  if (((65 <=? n) && (n <=? 90))
      || ((192 <=? n) && (n <=? 222) && negb (n =? 215)))%N
  then ascii_of_N (n + 32) else c.

Fixpoint lower (s : string) : string :=
  match s with
  | EmptyString => EmptyString
  | String c s' => String (lower_char c) (lower s')
  end.

Definition startswith (p s : string) : bool := String.prefix p s.

(** Truth value of a string: non-empty. *)
Definition nonempty (s : string) : bool :=
  match s with EmptyString => false | _ => true end.

(** [s.split(sep, maxsplit)] for a non-empty [sep], scanning left to right.
    [budget] is the number of splits still allowed ([None]: unbounded) and
    [skip] the number of characters of a matched separator still to drop.
    The piece under construction is the head of the result. *)
Definition cons_head (c : ascii) (pieces : list string) : list string :=
  match pieces with
  | [] => [String c EmptyString]
  | p :: ps => String c p :: ps
  end.

Definition may_split (budget : option nat) : bool :=
  match budget with Some O => false | _ => true end.

Definition spend (budget : option nat) : option nat :=
  match budget with Some n => Some (Nat.pred n) | None => None end.

Fixpoint split_go (sep : string) (budget : option nat) (skip : nat)
    (s : string) : list string :=
  match s with
  | EmptyString => [EmptyString]
  | String c s' =>
      match skip with
      | S k => split_go sep budget k s'
      | O =>
          if may_split budget && String.prefix sep s
          then EmptyString
                 :: split_go sep (spend budget) (Nat.pred (String.length sep)) s'
          else cons_head c (split_go sep budget 0 s')
      end
  end.

(** [str.split] raises [ValueError("empty separator")] on [sep = ""]. *)
Definition split (sep : string) (maxsplit : option nat) (s : string)
    : result (list string) :=
  match sep with
  | EmptyString => Raise ValueError
  | _ => Ok (split_go sep maxsplit 0 s)
  end.

(** [sep.join(pieces)] *)
Fixpoint join (sep : string) (pieces : list string) : string :=
  match pieces with
  | [] => EmptyString
  | [p] => p
  | p :: ps => p +:+ sep +:+ join sep ps
  end.

(** [s[n:]] *)
Fixpoint drop (n : nat) (s : string) : string :=
  match n, s with
  | O, _ => s
  | S _, EmptyString => EmptyString
  | S k, String _ s' => drop k s'
  end.

(** [c in s] for one character, and [sep in s] for a substring. *)
Fixpoint has_char (c : ascii) (s : string) : bool :=
  match s with
  | EmptyString => false
  | String x s' => Ascii.eqb x c || has_char c s'
  end.

Fixpoint contains (sep s : string) : bool :=
  match s with
  | EmptyString => String.prefix sep EmptyString
  | String _ s' => String.prefix sep s || contains sep s'
  end.

(** Iterating over a text file: each line keeps its terminating newline,
    the last one may lack it.  The text is the file content after decoding
    and newline translation. *)
Fixpoint readlines (text : string) : list string :=
  match text with
  | EmptyString => []
  | String c rest =>
      if Ascii.eqb c "010"
      then String c EmptyString :: readlines rest
      else cons_head c (readlines rest)
  end.

(** *** [int(text)]: optional sign, decimal digits, single underscores
    between digits, surrounding whitespace ignored. *)
Definition digit_value (c : ascii) : option Z :=
  let n := N_of_ascii c in
  if ((48 <=? n) && (n <=? 57))%N then Some (Z.of_N n - 48) else None.

Fixpoint digits_go (acc : Z) (after_digit : bool) (s : string) : option Z :=
  match s with
  | EmptyString => if after_digit then Some acc else None
  | String c s' =>
      match digit_value c with
      | Some d => digits_go (10 * acc + d) true s'
      | None =>
          if Ascii.eqb c "_" && after_digit then digits_go acc false s'
          else None
      end
  end.

Definition signed_digits (s : string) : option Z :=
  match s with
  | String "+" r => digits_go 0 false r
  | String "-" r => Z.opp <$> digits_go 0 false r
  | _ => digits_go 0 false s
  end.

(** The interpreter refuses to convert more than [limit] digit characters
    ([sys.int_max_str_digits], 4300 unless changed; 0 lifts the limit).
    Leading zeros count, underscores and the sign do not. *)
Fixpoint count_digits (s : string) : nat :=
  match s with
  | EmptyString => O
  | String c s' =>
      match digit_value c with
      | Some _ => S (count_digits s')
      | None => count_digits s'
      end
  end.

Definition within_limit (limit : nat) (s : string) : bool :=
  Nat.eqb limit 0 || Nat.leb (count_digits s) limit.

Definition limited_int (limit : nat) (s : string) : option Z :=
  if within_limit limit s then signed_digits s else None.

(** [int] on a [str] skips the whitespace of [isspace_int]: the ASCII
    separators U+001C..U+001F, which [str.strip] removes, are not skipped. *)
Definition isspace_int (c : ascii) : bool :=
  let n := N_of_ascii c in
  (((9 <=? n) && (n <=? 13)) || (n =? 32) || (n =? 133) || (n =? 160))%N.

Definition int_of_str (limit : nat) (s : string) : option Z :=
  limited_int limit (strip_with isspace_int s).

Definition int_of_bytes (limit : nat) (bs : list byte) : option Z :=
  limited_int limit (strip_with isspace_ascii (string_of_list_byte bs)).

End Py.

(** ** Base64 decoding: [base64.b64decode(s)] with its defaults

    [b64decode] first turns its argument into bytes (a [str] must be pure
    ASCII, else [ValueError]) and hands them to [binascii.a2b_base64] in
    non-strict mode, which is modelled here as the scanner it is: one pass
    over the bytes with the state [quad_pos], [leftchar], [pads]. *)

Module Base64.

Definition PAD : Z := 61.

(** [table_a2b_base64]: the 6-bit value of an alphabet character. *)
Definition table_a2b (c : Z) : option Z :=
  if (65 <=? c) && (c <=? 90) then Some (c - 65)
  else if (97 <=? c) && (c <=? 122) then Some (c - 71)
  else if (48 <=? c) && (c <=? 57) then Some (c + 4)
  else if c =? 43 then Some 62
  else if c =? 47 then Some 63
  else None.

(** Storing into an [unsigned char]. *)
Definition u8 (z : Z) : Z := Z.land z 255.

Definition byte_of_Z (z : Z) : byte :=
  match Byte.of_N (Z.to_N (u8 z)) with
  | Some b => b
  | None => x00
  end.

Definition Z_of_byte (b : byte) : Z := Z.of_N (Byte.to_N b).

Record state := {
  quad_pos : nat;
  leftchar : Z;
  pads : nat;
}.

Definition start : state := {| quad_pos := 0; leftchar := 0; pads := 0 |}.

(** The [switch (quad_pos)] of the loop body: the next state, and the byte
    written to the output when one is complete. *)
Definition shift_in (st : state) (this_ch : Z) : state * option Z :=
  match quad_pos st with
  | O => ({| quad_pos := 1; leftchar := this_ch; pads := 0 |}, None)
  | 1%nat =>
      ({| quad_pos := 2; leftchar := Z.land this_ch 15; pads := 0 |},
       Some (u8 (Z.lor (Z.shiftl (leftchar st) 2) (Z.shiftr this_ch 4))))
  | 2%nat =>
      ({| quad_pos := 3; leftchar := Z.land this_ch 3; pads := 0 |},
       Some (u8 (Z.lor (Z.shiftl (leftchar st) 4) (Z.shiftr this_ch 2))))
  | _ =>
      ({| quad_pos := 0; leftchar := 0; pads := 0 |},
       Some (u8 (Z.lor (Z.shiftl (leftchar st) 6) this_ch)))
  end.

Definition emit (o : option Z) (out : list Z) : list Z :=
  match o with Some b => b :: out | None => out end.

(** The loop over the input and the check after it.  A complete pad
    sequence ends the scan at once ([goto done]); other characters outside
    the alphabet, and pads that complete nothing, are skipped. *)
Fixpoint scan (st : state) (data : list Z) : option (list Z) :=
  match data with
  | [] => if Nat.eqb (quad_pos st) 0 then Some [] else None
  | this_ch :: rest =>
      if this_ch =? PAD then
        if Nat.leb 2 (quad_pos st) then
          if Nat.leb 4 (quad_pos st + S (pads st)) then Some []
          else scan {| quad_pos := quad_pos st; leftchar := leftchar st;
                       pads := S (pads st) |} rest
        else scan st rest
      else
        match table_a2b this_ch with
        | None => scan st rest
        | Some v =>
            let '(st', o) := shift_in st v in
            match scan st' rest with
            | Some out => Some (emit o out)
            | None => None
            end
        end
  end.

Definition a2b_base64 (data : list byte) : result (list byte) :=
  match scan start (map Z_of_byte data) with
  | Some out => Ok (map byte_of_Z out)
  | None => Raise BinasciiError
  end.

(** What the scanner looks at: alphabet characters and pads.  Everything
    else is skipped without a change of state. *)
Definition is_data (c : Z) : bool :=
  match table_a2b c with Some _ => true | None => false end.

Definition significant (data : list Z) : list Z :=
  List.filter (fun c => (c =? PAD) || is_data c) data.

Definition ndata (data : list Z) : nat := length (List.filter is_data data).

(** Padding completes a group: somewhere in the significant text a pad
    follows three characters of an unfinished group, or two pads follow
    two.  [completes_from q p] is the same for a scanner that already
    holds [q] characters of a group and, when [q = 2], [p] pads. *)
Definition completes_from (q p : nat) (t : list Z) : Prop :=
  exists d rest,
    (t = d ++ PAD :: rest /\ (q + ndata d) mod 4 = 3)%nat
    \/ (t = d ++ PAD :: PAD :: rest /\ (q + ndata d) mod 4 = 2)%nat
    \/ (q = 2 /\ p = 1 /\ t = PAD :: rest)%nat.

Definition completes (t : list Z) : Prop :=
  exists d rest,
    (t = d ++ PAD :: rest /\ ndata d mod 4 = 3)%nat
    \/ (t = d ++ PAD :: PAD :: rest /\ ndata d mod 4 = 2)%nat.

(** The standard encoding (RFC 4648, section 4), as the reference the
    decoder is measured against: three bytes become four alphabet
    characters, a last group of one or two bytes is padded. *)
Definition alphabet_char (i : Z) : Z :=
  if i <? 26 then i + 65
  else if i <? 52 then i + 71
  else if i <? 62 then i - 4
  else if i =? 62 then 43
  else 47.

Definition is_sextet (i : Z) : bool := (0 <=? i) && (i <? 64).

Definition sextet1 (a : Z) : Z := Z.shiftr a 2.
Definition sextet2 (a b : Z) : Z := Z.lor (Z.shiftl (Z.land a 3) 4) (Z.shiftr b 4).
Definition sextet3 (b c : Z) : Z := Z.lor (Z.shiftl (Z.land b 15) 2) (Z.shiftr c 6).
Definition sextet4 (c : Z) : Z := Z.land c 63.

Fixpoint encode (bs : list Z) : list Z :=
  match bs with
  | [] => []
  | [a] =>
      [alphabet_char (sextet1 a); alphabet_char (sextet2 a 0); PAD; PAD]
  | [a; b] =>
      [alphabet_char (sextet1 a); alphabet_char (sextet2 a b);
       alphabet_char (sextet3 b 0); PAD]
  | a :: b :: c :: rest =>
      alphabet_char (sextet1 a) :: alphabet_char (sextet2 a b)
        :: alphabet_char (sextet3 b c) :: alphabet_char (sextet4 c)
        :: encode rest
  end.

Definition standard_b64encode (bs : list byte) : string :=
  string_of_list_byte (map byte_of_Z (encode (map Z_of_byte bs))).

(** All byte values, for checking a property of bytes by enumeration. *)
Definition all_bytes : list Z := map Z.of_nat (seq 0 256).

(** The bytes of a text, for a [str] that is pure ASCII. *)
Definition codes (text : string) : list Z :=
  map Z_of_byte (list_byte_of_string text).

Definition is_ascii_char (c : ascii) : bool := (N_of_ascii c <? 128)%N.

Fixpoint isascii (s : string) : bool :=
  match s with
  | EmptyString => true
  | String c s' => is_ascii_char c && isascii s'
  end.

(** [_bytes_from_decode_data] followed by [binascii.a2b_base64]. *)
Definition b64decode (v : pyval) : result (list byte) :=
  match v with
  | VStr s =>
      if isascii s then a2b_base64 (list_byte_of_string s)
      else Raise ValueError
  | VBytes bs => a2b_base64 bs
  | _ => Raise TypeError
  end.

End Base64.

(** ** Libraries outside the repository

    The getters for floats, dates, durations, UUIDs, JSON, paths, URLs,
    enums and images delegate to the Python standard library and Pillow.
    Their results are opaque; what the module relies on is only which
    exception they raise. *)

Record parse_result := {
  url_object : pyval;
  url_scheme : string;
  url_netloc : string;
}.

Class Library := {
  int_max_str_digits : nat;                         (* sys.int_max_str_digits *)
  obj_int : N -> result Z;                          (* int(o), o opaque *)
  lib_float : pyval -> result pyval;                (* float(v) *)
  lib_strptime_date : pyval -> string -> result pyval;
                                     (* datetime.strptime(v, fmt).date() *)
  lib_timedelta : Z -> result pyval;                (* timedelta(seconds=n) *)
  lib_UUID : pyval -> result pyval;                 (* uuid.UUID(v) *)
  lib_json_loads : pyval -> result pyval;           (* json.loads(v) *)
  lib_Path : pyval -> result pyval;                 (* Path(v) *)
  lib_urlparse : pyval -> result parse_result;      (* urlparse(v) *)
  lib_getitem : pyval -> pyval -> result pyval;     (* enum_type[v] *)
  lib_Image_open : list byte -> result pyval;       (* Image.open(BytesIO(b)) *)
}.

(** ** The class [Env] *)

Record Env := {
  env_values : gmap string string;
  custom_parsers : gmap string pyobject;
}.

(** Methods: state passing over [Env], with exceptions.  The state is
    returned in both outcomes, since a raise does not undo mutation. *)
Definition M (A : Type) : Type := Env -> result A * Env.

Definition ret {A} (a : A) : M A := fun self => (Ok a, self).
Definition raise {A} (e : exn) : M A := fun self => (Raise e, self).
Definition lift {A} (r : result A) : M A := fun self => (r, self).

Definition bind {A B} (m : M A) (k : A -> M B) : M B :=
  fun self =>
    match m self with
    | (Ok a, self') => k a self'
    | (Raise e, self') => (Raise e, self')
    end.

Notation "'let*' x ':=' m 'in' k" := (bind m (fun x => k))
  (at level 10, x name, m at level 100, k at level 200).

Definition seq {A} (m : M unit) (k : M A) : M A := bind m (fun _ => k).

Definition fmap_M {A B} (f : A -> B) (m : M A) : M B :=
  let* a := m in ret (f a).

Definition read_env_values : M (gmap string string) :=
  fun self => (Ok (env_values self), self).

Definition read_custom_parsers : M (gmap string pyobject) :=
  fun self => (Ok (custom_parsers self), self).

Definition write_custom_parsers (d : gmap string pyobject) : M unit :=
  fun self => (Ok tt, {| env_values := env_values self; custom_parsers := d |}).

Definition write_env_values (d : gmap string string) : M unit :=
  fun self => (Ok tt, {| env_values := d; custom_parsers := custom_parsers self |}).

(** *** Loading the file *)

(** The body of [for line in f]: the dictionary built so far is threaded
    through; [key, value = ...] raises [ValueError] unless the split has
    exactly two parts. *)
Fixpoint load_lines (lines : list string) (env_dict : gmap string string)
    : result (gmap string string) :=
  match lines with
  | [] => Ok env_dict
  | line :: rest =>
      if Py.nonempty (Py.strip line) && negb (Py.startswith "#" line) then
        match Py.split "=" (Some 1%nat) (Py.strip line) with
        | Ok [key; value] => load_lines rest (<[key := value]> env_dict)
        | Ok _ => Raise ValueError
        | Raise e => Raise e
        end
      else load_lines rest env_dict
  end.

(** [fs] is the file system as far as the model goes: [Some text] when the
    file at a path opens and reads as [text], [None] when [open] raises
    [FileNotFoundError].  The other ways [open] or the reading can fail (the
    path is a directory, permission is denied, the bytes do not decode) are
    not modelled; the source catches none of them. *)
Definition _load_env_file (fs : string -> option string)
    (values : gmap string string) : result (gmap string string) :=
  let env_file := default ".env" (values !! "env_file") in
  match fs env_file with
  | Some text => load_lines (Py.readlines text) ∅
  | None => Raise (EnvParseError (FileDoesNotExist env_file))
  end.

(** Construction: [env_values] comes from the validator, [custom_parsers]
    from its [default_factory]. *)
Definition Env_init (fs : string -> option string)
    (values : gmap string string) : result Env :=
  rmap (fun d => {| env_values := d; custom_parsers := ∅ |})
       (_load_env_file fs values).

(** *** Resolution *)

Definition _get (key : string) : M string :=
  let* env_values := read_env_values in
  match env_values !! key with
  | None => raise (EnvParseError (KeyNotFound key))
  | Some raw => ret raw
  end.

Definition _apply_custom_parser (key : string) (value : string) : M pyval :=
  let* custom_parsers := read_custom_parsers in
  match custom_parsers !! key with
  | Some (Callable f) => lift (f value)
  | Some (NotCallable _) => raise TypeError
  | None => ret (VStr value)
  end.

Definition register_parser (key : string) (parser_func : pyobject) : M unit :=
  if negb (callable parser_func)
  then raise (EnvParseError (ParserNotCallable key))
  else
    let* custom_parsers := read_custom_parsers in
    write_custom_parsers (<[key := parser_func]> custom_parsers).

(** [env.env_values[key] = raw], as the tests do. *)
Definition set_env_value (key raw : string) : M unit :=
  let* env_values := read_env_values in
  write_env_values (<[key := raw]> env_values).

(** *** Conversions: what each getter does to the resolved value *)

Definition truthy (s : string) : bool := Py.nonempty s.

(** [value in [...]] for a list of string literals: only a [str] compares
    equal to one. *)
Definition value_in (value : pyval) (options : list string) : bool :=
  match value with
  | VStr s => existsb (String.eqb s) options
  | _ => false
  end.

(** [value.split(sep)] on an arbitrary object: a [str] splits, [bytes]
    rejects a [str] separator, anything else (the opaque library objects
    included) has no such method. *)
Definition method_split (value : pyval) (sep : string) : result (list string) :=
  match value with
  | VStr s => Py.split sep None s
  | VBytes _ => Raise TypeError
  | _ => Raise AttributeError
  end.

(** [dict(pairs)]: every element must have exactly two parts; later keys
    win. *)
Fixpoint dict_of_pairs (pairs : list (list string)) (d : gmap string string)
    : result (gmap string string) :=
  match pairs with
  | [] => Ok d
  | [k; v] :: rest => dict_of_pairs rest (<[k := v]> d)
  | _ :: _ => Raise ValueError
  end.

Fixpoint split_each (sep : string) (items : list string)
    : result (list (list string)) :=
  match items with
  | [] => Ok []
  | item :: rest =>
      rbind (Py.split sep None item) (fun parts =>
      rbind (split_each sep rest) (fun more => Ok (parts :: more)))
  end.

Section Getters.
Context {L : Library}.

  (** [int(value)] *)
Definition py_int (value : pyval) : result Z :=
    match value with
    | VStr s =>
        match Py.int_of_str int_max_str_digits s with
        | Some n => Ok n
        | None => Raise ValueError
        end
    | VBytes bs =>
        match Py.int_of_bytes int_max_str_digits bs with
        | Some n => Ok n
        | None => Raise ValueError
        end
    | VInt n => Ok n
    | VBool b => Ok (if b then 1 else 0)
    | VObj h => obj_int h
    | VNone | VList _ | VDict _ => Raise TypeError
    end.

  (** [conint()] without bounds builds an unconstrained integer type;
      calling it on an [int] gives that integer back. *)
Definition conint (n : Z) : result Z := Ok n.

Definition convert_int (key : string) (value : pyval) : result Z :=
    try_except (rbind (py_int value) conint) is_ValueError
      (fun _ => Raise (EnvParseError (NotValidInteger value key))).

Definition convert_float (key : string) (value : pyval) : result pyval :=
    try_except (lib_float value) is_ValueError
      (fun _ => Raise (EnvParseError (NotValidFloat value key))).

Definition convert_bool (key : string) (value : pyval) : result bool :=
    if value_in value ["true"; "1"; "yes"] then Ok true
    else if value_in value ["false"; "0"; "no"] then Ok false
    else Raise (EnvParseError (NotValidBoolean value key)).

Definition convert_date (date_format : string) (key : string) (value : pyval)
      : result pyval :=
    try_except (lib_strptime_date value date_format) is_ValueError
      (fun _ => Raise (EnvParseError (NotValidDate value key date_format))).

Definition convert_timedelta (key : string) (value : pyval) : result pyval :=
    try_except (rbind (py_int value) lib_timedelta) is_ValueError
      (fun _ => Raise (EnvParseError (NotValidTimedelta value key))).

Definition convert_uuid (key : string) (value : pyval) : result pyval :=
    try_except (lib_UUID value) is_ValueError
      (fun _ => Raise (EnvParseError (NotValidUUID value key))).

Definition convert_json (key : string) (value : pyval) : result pyval :=
    try_except (lib_json_loads value) is_JSONDecodeError
      (fun _ => Raise (EnvParseError (NotValidJSON value key))).

Definition convert_path (key : string) (value : pyval) : result pyval :=
    lib_Path value.

Definition convert_url (key : string) (value : pyval) : result pyval :=
    rbind (lib_urlparse value) (fun parsed =>
      if truthy (url_scheme parsed) && truthy (url_netloc parsed)
      then Ok (url_object parsed)
      else Raise (EnvParseError (NotValidURL value key))).

Definition convert_enum (enum_type : pyval) (key : string) (value : pyval)
      : result pyval :=
    try_except (lib_getitem enum_type value) is_KeyError
      (fun _ => Raise (EnvParseError (NotValidEnum value key enum_type))).

Definition convert_list (delimiter : string) (key : string) (value : pyval)
      : result (list string) :=
    rbind (method_split value delimiter) (fun items => Ok (map Py.strip items)).

Definition convert_dict (key : string) (value : pyval)
      : result (gmap string string) :=
    try_except
      (rbind (method_split value ",") (fun items =>
       rbind (split_each ":" items) (fun pairs => dict_of_pairs pairs ∅)))
      is_Exception
      (fun _ => Raise (EnvParseError (NotValidDict value key))).

Definition convert_base64 (key : string) (value : pyval) : result (list byte) :=
    try_except (Base64.b64decode value) is_ValueError
      (fun _ => Raise (EnvParseError (NotValidBase64 value key))).

Definition convert_image (decoded : list byte) : result pyval :=
    try_except (lib_Image_open decoded) is_Exception
      (fun e => Raise (EnvParseError (ImageLoadError e))).

  (** *** The typed getters *)

Definition Env_str (key : string) : M pyval :=
    let* value := _get key in
    _apply_custom_parser key value.

Definition Env_int (key : string) : M Z :=
    let* value := _get key in
    let* value := _apply_custom_parser key value in
    lift (convert_int key value).

Definition Env_float (key : string) : M pyval :=
    let* value := _get key in
    let* value := _apply_custom_parser key value in
    lift (convert_float key value).

Definition Env_bool (key : string) : M bool :=
    let* value := fmap_M Py.lower (_get key) in
    let* value := _apply_custom_parser key value in
    lift (convert_bool key value).

Definition Env_date (key : string) (date_format : string) : M pyval :=
    let* value := _get key in
    let* value := _apply_custom_parser key value in
    lift (convert_date date_format key value).

Definition Env_timedelta (key : string) : M pyval :=
    let* value := _get key in
    let* value := _apply_custom_parser key value in
    lift (convert_timedelta key value).

Definition Env_uuid (key : string) : M pyval :=
    let* value := _get key in
    let* value := _apply_custom_parser key value in
    lift (convert_uuid key value).

Definition Env_json (key : string) : M pyval :=
    let* value := _get key in
    let* value := _apply_custom_parser key value in
    lift (convert_json key value).

Definition Env_path (key : string) : M pyval :=
    let* value := _get key in
    let* value := _apply_custom_parser key value in
    lift (convert_path key value).

Definition Env_url (key : string) : M pyval :=
    let* value := _get key in
    let* value := _apply_custom_parser key value in
    lift (convert_url key value).

Definition Env_enum (key : string) (enum_type : pyval) : M pyval :=
    let* value := _get key in
    let* value := _apply_custom_parser key value in
    lift (convert_enum enum_type key value).

Definition Env_list (key : string) (delimiter : string) : M (list string) :=
    let* value := _get key in
    let* value := _apply_custom_parser key value in
    lift (convert_list delimiter key value).

Definition Env_dict (key : string) : M (gmap string string) :=
    let* value := _get key in
    let* value := _apply_custom_parser key value in
    lift (convert_dict key value).

Definition Env_base64_decode (key : string) : M (list byte) :=
    let* value := _get key in
    let* value := _apply_custom_parser key value in
    lift (convert_base64 key value).

Definition Env_base64_image (key : string) : M pyval :=
    let* decoded := Env_base64_decode key in
    lift (convert_image decoded).

Definition Env_port (key : string) : M Z :=
    let* value := _get key in
    let* value := _apply_custom_parser key value in
    let* port := Env_int key in
    if (1 <=? port) && (port <=? 65535) then ret port
    else raise (EnvParseError (NotValidPort value key)).

  (** The sixteen getters as one family, with the extra argument some of
      them take; [call] wraps each result as a Python object. *)
Inductive getter :=
  | Gstr | Gint | Gfloat | Gbool
  | Gdate (date_format : string)
  | Gtimedelta | Guuid | Gjson | Gpath | Gurl
  | Genum (enum_type : pyval)
  | Glist (delimiter : string)
  | Gdict | Gbase64_decode | Gbase64_image | Gport.

Definition call (g : getter) (key : string) : M pyval :=
    match g with
    | Gstr => Env_str key
    | Gint => fmap_M VInt (Env_int key)
    | Gfloat => Env_float key
    | Gbool => fmap_M VBool (Env_bool key)
    | Gdate date_format => Env_date key date_format
    | Gtimedelta => Env_timedelta key
    | Guuid => Env_uuid key
    | Gjson => Env_json key
    | Gpath => Env_path key
    | Gurl => Env_url key
    | Genum enum_type => Env_enum key enum_type
    | Glist delimiter => fmap_M (fun items => VList (map VStr items)) (Env_list key delimiter)
    | Gdict => fmap_M VDict (Env_dict key)
    | Gbase64_decode => fmap_M VBytes (Env_base64_decode key)
    | Gbase64_image => Env_base64_image key
    | Gport => fmap_M VInt (Env_port key)
    end.

(** ** The resolution pipeline, as one function of the two dictionaries

    [override_input g raw] is the text a getter hands to the override:
    the stored text, except in [Env_bool], which lower-cases it first.
    [resolve self g key] is steps 1 and 2 of every getter; [convert g key]
    is what follows. *)

Definition override_input (g : getter) (raw : string) : string :=
  match g with
  | Gbool => Py.lower raw
  | _ => raw
  end.

Definition apply_override (o : option pyobject) (text : string) : result pyval :=
  match o with
  | Some (Callable f) => f text
  | Some (NotCallable _) => Raise TypeError
  | None => Ok (VStr text)
  end.

Definition resolve (self : Env) (g : getter) (key : string) : result pyval :=
  match env_values self !! key with
  | None => Raise (EnvParseError (KeyNotFound key))
  | Some raw => apply_override (custom_parsers self !! key) (override_input g raw)
  end.

Definition check_port (key : string) (value : pyval) (port : Z) : result Z :=
    if (1 <=? port) && (port <=? 65535) then Ok port
    else Raise (EnvParseError (NotValidPort value key)).

Definition convert (g : getter) (key : string) (value : pyval) : result pyval :=
    match g with
    | Gstr => Ok value
    | Gint => rmap VInt (convert_int key value)
    | Gfloat => convert_float key value
    | Gbool => rmap VBool (convert_bool key value)
    | Gdate date_format => convert_date date_format key value
    | Gtimedelta => convert_timedelta key value
    | Guuid => convert_uuid key value
    | Gjson => convert_json key value
    | Gpath => convert_path key value
    | Gurl => convert_url key value
    | Genum enum_type => convert_enum enum_type key value
    | Glist delimiter =>
        rmap (fun items => VList (map VStr items)) (convert_list delimiter key value)
    | Gdict => rmap VDict (convert_dict key value)
    | Gbase64_decode => rmap VBytes (convert_base64 key value)
    | Gbase64_image => rbind (convert_base64 key value) convert_image
    | Gport => rmap VInt (rbind (convert_int key value) (check_port key value))
    end.


End Getters.

(** A [Library] for running the getters on concrete inputs: a bare
    interpreter, in which every call into an outside library is refused.
    The examples below only use getters that stay inside the module. *)
Definition refused {A} : result A := Raise (OtherException "ImportError").

Definition bare_library : Library := {|
  int_max_str_digits := 4300;
  obj_int := fun _ => refused;
  lib_float := fun _ => refused;
  lib_strptime_date := fun _ _ => refused;
  lib_timedelta := fun _ => refused;
  lib_UUID := fun _ => refused;
  lib_json_loads := fun _ => refused;
  lib_Path := fun _ => refused;
  lib_urlparse := fun _ => refused;
  lib_getitem := fun _ _ => refused;
  lib_Image_open := fun _ => refused;
|}.

(** An override that tells upper case from lower case: it answers [yes]
    to the exact text [ON] and [no] to anything else. *)
Definition on_means_yes (text : string) : result pyval :=
  if String.eqb text "ON" then Ok (VStr "yes") else Ok (VStr "no").

(** The store of the test fixture, as far as the examples need it. *)
Definition fixture : Env := {|
  env_values :=
    <["PORT" := "8080"]> (<["SAMPLE_LIST" := "1,2,3"]>
      (<["BASE64_IMAGE" := "aGVsbG8gd29ybGQ="]> (<["IS_ACTIVE" := "true"]> ∅)));
  custom_parsers := ∅;
|}.

(** A store with one flag, read through [on_means_yes]. *)
Definition flag_env : Env := {|
  env_values := <["FLAG" := "ON"]> ∅;
  custom_parsers := <["FLAG" := Callable on_means_yes]> ∅;
|}.

(** Overrides as the tests register them: constant functions. *)
Definition constantly (v : pyval) : pyobject := Callable (fun _ => Ok v).

(** The newline character, for writing file contents. *)
Definition NL : string := String "010" EmptyString.

(** A file system holding one file, at every path. *)
Definition one_file (text : string) : string -> option string :=
  fun _ => Some text.

(** Number of occurrences of a character, and the getters that never call
    into an outside library. *)
Fixpoint count_char (c : ascii) (s : string) : nat :=
  match s with
  | EmptyString => O
  | String x s' => (if Ascii.eqb x c then 1 else 0) + count_char c s'
  end.

Definition library_free (g : getter) : bool :=
  match g with
  | Gstr | Gint | Gbool | Gdict | Gbase64_decode | Gport => true
  | Glist delimiter => Py.nonempty delimiter
  | _ => false
  end.

(** [str(n)] for an integer: decimal digits, a minus sign when negative. *)
Definition str_of_int (n : Z) : string :=
  NilZero.string_of_int (Z.to_int n).

(** A store whose port is out of range, and one whose override fails. *)
Definition big_port_env : Env := {|
  env_values := <["PORT" := "99999"]> ∅;
  custom_parsers := ∅;
|}.

Definition failing_override : pyobject :=
  Callable (fun _ => Raise (OtherException "RuntimeError")).

Definition failing_env : Env := {|
  env_values := <["PORT" := "8080"]> ∅;
  custom_parsers := <["PORT" := failing_override]> ∅;
|}.

(** Stores for the dictionary and base64 examples. *)
Definition dict_env : Env := {|
  env_values := <["SAMPLE_DICT" := "key1:value1,key2:value2"]> ∅;
  custom_parsers := ∅;
|}.

Definition wrapped_base64_env : Env := {|
  env_values := <["BASE64_IMAGE" := "aGVsbG8g d29y!bGQ="]> ∅;
  custom_parsers := ∅;
|}.

Definition trailing_base64_env : Env := {|
  env_values := <["BASE64_IMAGE" := "aGVsbG8gd29ybGQ=ignored"]> ∅;
  custom_parsers := ∅;
|}.

(** A stand-in for [urlparse], for running [Env_url]: right on text of
    the plain form scheme://host/path (the scheme is what precedes the
    first "://", the network location what follows up to the next slash)
    and on text without "://", which has neither. *)
Definition simple_urlparse (value : pyval) : result parse_result :=
  match value with
  | VStr s =>
      match Py.split_go "://" (Some 1%nat) 0 s with
      | [scheme; rest] =>
          Ok {| url_object := VObj 0;
                url_scheme := scheme;
                url_netloc := hd "" (Py.split_go "/" (Some 1%nat) 0 rest) |}
      | _ => Ok {| url_object := VObj 0; url_scheme := ""; url_netloc := "" |}
      end
  | _ => Raise TypeError
  end.

Definition url_library : Library := {|
  int_max_str_digits := 4300;
  obj_int := fun _ => refused;
  lib_float := fun _ => refused;
  lib_strptime_date := fun _ _ => refused;
  lib_timedelta := fun _ => refused;
  lib_UUID := fun _ => refused;
  lib_json_loads := fun _ => refused;
  lib_Path := fun _ => refused;
  lib_urlparse := simple_urlparse;
  lib_getitem := fun _ _ => refused;
  lib_Image_open := fun _ => refused;
|}.

Definition url_env : Env := {|
  env_values :=
    <["HOMEPAGE" := "http://example.com/docs"]> (<["HOST" := "example.com"]> ∅);
  custom_parsers := ∅;
|}.

(** * Properties *)

(** ** Strings *)

Section StringFacts.

Lemma append_nil_l (s : string) : "" +:+ s = s.
Proof. reflexivity. Qed.

Lemma append_cons (c : ascii) (s t : string) :
  String c s +:+ t = String c (s +:+ t).
Proof. reflexivity. Qed.

Lemma append_nil_r (s : string) : s +:+ "" = s.
Proof. induction s as [|c s IH]; [reflexivity|]. now rewrite append_cons, IH. Qed.

Lemma append_assoc (s t u : string) : (s +:+ t) +:+ u = s +:+ (t +:+ u).
Proof.
  induction s as [|c s IH]; [reflexivity|]. now rewrite !append_cons, IH.
Qed.

Lemma prefix_drop (p s : string) :
  String.prefix p s = true -> s = p +:+ Py.drop (String.length p) s.
Proof.
  revert s. induction p as [|a p IH]; intros s Hp; [reflexivity|].
  destruct s as [|c s]; [discriminate|]. simpl in Hp.
  destruct (ascii_dec a c) as [->|]; [|discriminate].
  rewrite append_cons. simpl. f_equal. now apply IH.
Qed.

Lemma split_go_nonempty sep budget skip s : Py.split_go sep budget skip s <> [].
Proof.
  revert budget skip. induction s as [|c s IH]; intros budget skip; simpl.
  - discriminate.
  - destruct skip; [|apply IH].
    destruct (Py.may_split budget && _); [discriminate|].
    specialize (IH budget 0%nat).
    destruct (Py.split_go sep budget 0 s); [contradiction|discriminate].
Qed.

Lemma join_cons (sep p : string) (ps : list string) :
  ps <> [] -> Py.join sep (p :: ps) = p +:+ sep +:+ Py.join sep ps.
Proof. destruct ps; [contradiction|reflexivity]. Qed.

Lemma join_cons_head (sep : string) (c : ascii) (pieces : list string) :
  pieces <> [] ->
  Py.join sep (Py.cons_head c pieces) = String c (Py.join sep pieces).
Proof.
  destruct pieces as [|p [|q ps]]; [contradiction|reflexivity|reflexivity].
Qed.

(** Joining the pieces with the separator gives the text back. *)
Lemma join_split_go (sep : string) budget skip s :
  sep <> "" -> Py.join sep (Py.split_go sep budget skip s) = Py.drop skip s.
Proof.
  intros Hsep. revert budget skip.
  induction s as [|c s IH]; intros budget skip.
  - destruct skip; reflexivity.
  - destruct skip as [|k]; [|apply IH].
    cbn [Py.split_go Py.drop].
    destruct (Py.may_split budget && String.prefix sep (String c s)) eqn:Hcut.
    + apply andb_true_iff in Hcut as [_ Hpre].
      rewrite join_cons by apply split_go_nonempty.
      rewrite IH, append_nil_l.
      pose proof (prefix_drop _ _ Hpre) as Hs.
      destruct sep as [|a sep]; [contradiction|].
      etransitivity; [|symmetry; exact Hs]. reflexivity.
    + rewrite join_cons_head by apply split_go_nonempty.
      now rewrite IH.
Qed.

End StringFacts.

Section Pipeline.
Context {L : Library}.

  (** *** Every getter is resolution followed by conversion *)

Lemma _get_run key self :
    _get key self =
      (match env_values self !! key with
       | Some raw => Ok raw
       | None => Raise (EnvParseError (KeyNotFound key))
       end, self).
Proof.
    unfold _get, bind, read_env_values.
    destruct (env_values self !! key); reflexivity.
Qed.

Lemma _apply_custom_parser_run key text self :
    _apply_custom_parser key text self =
      (apply_override (custom_parsers self !! key) text, self).
Proof.
    unfold _apply_custom_parser, bind, read_custom_parsers, apply_override.
    destruct (custom_parsers self !! key) as [[f|v]|]; reflexivity.
Qed.

  (** The common prefix of the getters. *)
Lemma resolve_then {A} g key (k : pyval -> result A) self :
    override_input g = (fun raw => raw) ->
    (let* value := _get key in
     let* value := _apply_custom_parser key value in
     lift (k value)) self
    = (rbind (resolve self g key) k, self).
Proof.
    intros Hin. unfold bind at 1. rewrite _get_run. unfold resolve.
    rewrite Hin.
    destruct (env_values self !! key) as [raw|]; [|reflexivity].
    unfold bind. rewrite _apply_custom_parser_run.
    destruct (apply_override _ raw); reflexivity.
Qed.

Lemma Env_int_run key self g :
    override_input g = (fun raw => raw) ->
    Env_int key self = (rbind (resolve self g key) (convert_int key), self).
Proof. intros Hin. unfold Env_int. now apply resolve_then. Qed.

Lemma Env_port_run key self :
    Env_port key self =
      (rbind (resolve self Gport key)
         (fun value => rbind (convert_int key value) (check_port key value)),
       self).
Proof.
    unfold Env_port. unfold bind at 1. rewrite _get_run.
    unfold resolve; simpl override_input.
    destruct (env_values self !! key) as [raw|] eqn:Hraw; [|reflexivity].
    unfold bind at 1. rewrite _apply_custom_parser_run.
    destruct (apply_override _ raw) as [value|e] eqn:Hov; [|reflexivity].
    unfold bind. rewrite (Env_int_run key self Gport eq_refl).
    unfold resolve; simpl override_input. rewrite Hraw, Hov. simpl.
    destruct (convert_int key value) as [port|e]; [|reflexivity].
    simpl. unfold check_port.
    destruct ((1 <=? port) && (port <=? 65535)); reflexivity.
Qed.

Lemma Env_bool_run key self :
    Env_bool key self = (rbind (resolve self Gbool key) (convert_bool key), self).
Proof.
    unfold Env_bool, fmap_M. unfold bind at 1. unfold bind at 1.
    rewrite _get_run. unfold resolve; simpl override_input.
    destruct (env_values self !! key) as [raw|]; [|reflexivity].
    unfold ret. unfold bind. rewrite _apply_custom_parser_run.
    destruct (apply_override _ (Py.lower raw)); reflexivity.
Qed.

Lemma Env_list_run key delimiter self :
    Env_list key delimiter self =
      (rbind (resolve self (Glist delimiter) key) (convert_list delimiter key), self).
Proof. unfold Env_list. now apply resolve_then. Qed.

Lemma Env_dict_run key self :
    Env_dict key self = (rbind (resolve self Gdict key) (convert_dict key), self).
Proof. unfold Env_dict. now apply resolve_then. Qed.

Lemma Env_base64_decode_run key self g :
    override_input g = (fun raw => raw) ->
    Env_base64_decode key self =
      (rbind (resolve self g key) (convert_base64 key), self).
Proof. intros Hin. unfold Env_base64_decode. now apply resolve_then. Qed.

Lemma Env_str_run key self :
    Env_str key self = (resolve self Gstr key, self).
Proof.
    unfold Env_str, bind. rewrite _get_run. unfold resolve; simpl.
    destruct (env_values self !! key) as [raw|]; [|reflexivity].
    rewrite _apply_custom_parser_run.
    destruct (apply_override _ raw); reflexivity.
Qed.

Ltac finish_call :=
    match goal with
    | |- context [resolve ?self ?g ?key] =>
        destruct (resolve self g key) as [?value|?e]; simpl; [|reflexivity]
    end;
    repeat match goal with
    | |- context [match ?r with Ok _ => _ | Raise _ => _ end] =>
        destruct r; simpl
    end; reflexivity.

Lemma call_run g key self :
    call g key self = (rbind (resolve self g key) (convert g key), self).
Proof.
    destruct g; simpl call;
      try (apply (resolve_then _ key _ self); reflexivity).
    - rewrite Env_str_run. destruct (resolve self Gstr key); reflexivity.
    - unfold fmap_M, bind. rewrite (Env_int_run key self Gint eq_refl).
      finish_call.
    - unfold fmap_M, bind. rewrite Env_bool_run. finish_call.
    - unfold fmap_M, bind. rewrite Env_list_run. finish_call.
    - unfold fmap_M, bind. rewrite Env_dict_run. finish_call.
    - unfold fmap_M, bind.
      rewrite (Env_base64_decode_run key self Gbase64_decode eq_refl).
      finish_call.
    - unfold Env_base64_image, bind.
      rewrite (Env_base64_decode_run key self Gbase64_image eq_refl).
      finish_call.
    - unfold fmap_M, bind. rewrite Env_port_run. finish_call.
Qed.


(** C3. A getter called with a key that is not in [env_values] raises
    [EnvParseError] with the text "<key> not found in environment
    variables"; it returns no value, and this holds for each of the
    sixteen getters. *)
Theorem missing_key_raises (g : getter) (key : string) (self : Env) :
  env_values self !! key = None ->
  call g key self = (Raise (EnvParseError (KeyNotFound key)), self).
Proof.
  intros Hmiss. rewrite call_run. unfold resolve. rewrite Hmiss. reflexivity.
Qed.

(** C10. A getter returns the [Env] it was given, with both dictionaries
    as they were, whether it returned a value or raised.  The operations
    that do change a dictionary are [register_parser], which rebinds one
    key of [custom_parsers] and leaves [env_values] alone, and direct
    assignment to [env_values], which leaves [custom_parsers] alone. *)
Theorem getters_leave_env_unchanged (g : getter) (key : string) (self : Env) :
  snd (call g key self) = self
  /\ (forall f,
        custom_parsers (snd (register_parser key (Callable f) self))
          = <[key := Callable f]> (custom_parsers self))
  /\ (forall parser_func,
        env_values (snd (register_parser key parser_func self)) = env_values self)
  /\ (forall raw,
        env_values (snd (set_env_value key raw self))
          = <[key := raw]> (env_values self)
        /\ custom_parsers (snd (set_env_value key raw self)) = custom_parsers self).
Proof.
  split; [rewrite call_run; reflexivity|].
  split; [reflexivity|].
  split; [intros [f|v]; reflexivity|].
  intros raw. split; reflexivity.
Qed.


(** In every getter other than [Env_bool] the override receives the
    stored text itself, and its result is what gets converted. *)
Lemma override_output_is_converted (g : getter) (key raw : string)
    (f : string -> result pyval) (self : Env) :
  g <> Gbool ->
  env_values self !! key = Some raw ->
  custom_parsers self !! key = Some (Callable f) ->
  call g key self = (rbind (f raw) (convert g key), self).
Proof.
  intros Hg Hraw Hf. rewrite call_run. unfold resolve. rewrite Hraw, Hf.
  destruct g; try reflexivity. congruence.
Qed.

(** In [Env_bool] the override receives the lower-cased text. *)
Lemma bool_override_sees_lowercase (key raw : string)
    (f : string -> result pyval) (self : Env) :
  env_values self !! key = Some raw ->
  custom_parsers self !! key = Some (Callable f) ->
  Env_bool key self = (rbind (f (Py.lower raw)) (convert_bool key), self).
Proof.
  intros Hraw Hf. rewrite Env_bool_run. unfold resolve. rewrite Hraw, Hf.
  reflexivity.
Qed.

(** C4, as the code has it.  [Env_port] converts the resolved value (what
    [Env_str] returns) with [int] and checks the range: when the value
    parses as [n], the getter returns [n] exactly when [1 <= n <= 65535]
    and raises [EnvParseError] otherwise; when the value is text that is
    not a decimal integer, it raises [EnvParseError].  (For an object that
    is neither text nor a number, [int] raises [TypeError], which is not
    caught.) *)
Theorem port_range_check (key : string) (self : Env) (value : pyval) :
  fst (Env_str key self) = Ok value ->
  (forall n, py_int value = Ok n ->
     (fst (Env_port key self) = Ok n <-> 1 <= n <= 65535)
     /\ (~ 1 <= n <= 65535 ->
         fst (Env_port key self)
           = Raise (EnvParseError (NotValidPort value key))))
  /\ (forall text, value = VStr text ->
        Py.int_of_str int_max_str_digits text = None ->
        fst (Env_port key self)
          = Raise (EnvParseError (NotValidInteger value key))).
Proof.
  rewrite Env_str_run, Env_port_run. simpl fst. intros Hres.
  assert (Hsame : resolve self Gport key = Ok value) by exact Hres.
  rewrite Hsame. simpl rbind. split.
  - intros n Hn. unfold convert_int. rewrite Hn. simpl.
    unfold check_port.
    destruct ((1 <=? n) && (n <=? 65535)) eqn:Hrange.
    + apply andb_true_iff in Hrange as [H1 H2].
      apply Z.leb_le in H1. apply Z.leb_le in H2.
      split; [split; [lia | reflexivity] | lia].
    + assert (~ 1 <= n <= 65535) as Hout.
      { intros [H1 H2]. apply Z.leb_le in H1. apply Z.leb_le in H2.
        rewrite H1, H2 in Hrange. discriminate. }
      split; [split; [discriminate | contradiction] | reflexivity].
  - intros text -> Hbad. unfold convert_int. simpl. rewrite Hbad. reflexivity.
Qed.

End Pipeline.

(** ** Loading *)

Section Loading.

Lemma split_go_spent sep skip s :
  Py.split_go sep (Some 0%nat) skip s = [Py.drop skip s].
Proof.
  revert skip. induction s as [|c s IH]; intros [|k]; try reflexivity.
  - cbn [Py.split_go Py.may_split andb]. rewrite IH. reflexivity.
  - cbn [Py.split_go Py.drop]. apply IH.
Qed.

Lemma prefix_eq_sign (c : ascii) (s : string) :
  String.prefix "=" (String c s) = Ascii.eqb c "=".
Proof.
  cbn [String.prefix]. destruct (ascii_dec "=" c) as [Heq|Hne].
  - subst c. now destruct s.
  - symmetry. apply Ascii.eqb_neq. congruence.
Qed.

(** Text with an equals sign splits into what is before the first one and
    everything after it. *)
Lemma split_key_value (key value : string) :
  Py.has_char "=" key = false ->
  Py.split_go "=" (Some 1%nat) 0 (key +:+ "=" +:+ value) = [key; value].
Proof.
  induction key as [|c key IH]; intros Hkey.
  - rewrite append_nil_l. change ("=" +:+ value) with (String "=" value).
    cbn [Py.split_go Py.may_split andb]. rewrite prefix_eq_sign. simpl.
    rewrite split_go_spent. reflexivity.
  - simpl in Hkey. apply orb_false_iff in Hkey as [Hc Hkey].
    rewrite append_cons. cbn [Py.split_go Py.may_split andb].
    rewrite prefix_eq_sign, Hc, (IH Hkey). reflexivity.
Qed.

(** Text without an equals sign comes back as one piece. *)
Lemma split_without_eq (s : string) :
  Py.has_char "=" s = false -> Py.split_go "=" (Some 1%nat) 0 s = [s].
Proof.
  induction s as [|c s IH]; intros Hs; [reflexivity|].
  simpl in Hs. apply orb_false_iff in Hs as [Hc Hs].
  cbn [Py.split_go Py.may_split andb]. rewrite prefix_eq_sign, Hc, (IH Hs).
  reflexivity.
Qed.

Lemma split_two_parts (s key value : string) :
  Py.split_go "=" (Some 1%nat) 0 s = [key; value] -> s = key +:+ "=" +:+ value.
Proof.
  intros Hsplit.
  pose proof (join_split_go "=" (Some 1%nat) 0 s ltac:(discriminate)) as Hjoin.
  rewrite Hsplit in Hjoin. simpl in Hjoin. symmetry. exact Hjoin.
Qed.

Lemma load_lines_app (pre post : list string) (d : gmap string string) :
  load_lines (pre ++ post) d = rbind (load_lines pre d) (load_lines post).
Proof.
  revert d. induction pre as [|line pre IH]; intros d; [reflexivity|].
  cbn [app load_lines].
  destruct (Py.nonempty (Py.strip line) && negb (Py.startswith "#" line));
    [|apply IH].
  destruct (Py.split "=" (Some 1%nat) (Py.strip line)) as [[|k [|v [|x parts]]]|e];
    try reflexivity.
  apply IH.
Qed.

Lemma load_lines_skip (line : string) (rest : list string) d :
  Py.strip line = "" \/ Py.startswith "#" line = true ->
  load_lines (line :: rest) d = load_lines rest d.
Proof.
  intros [Hblank|Hhash]; cbn [load_lines].
  - rewrite Hblank. reflexivity.
  - rewrite Hhash, andb_false_r. reflexivity.
Qed.

Lemma load_lines_assign (line key value : string) (rest : list string) d :
  Py.startswith "#" line = false ->
  Py.strip line = key +:+ "=" +:+ value ->
  Py.has_char "=" key = false ->
  load_lines (line :: rest) d = load_lines rest (<[key := value]> d).
Proof.
  intros Hhash Hline Hkey. cbn [load_lines]. rewrite Hhash, Hline.
  replace (Py.nonempty (key +:+ "=" +:+ value)) with true
    by (destruct key; reflexivity).
  cbn [negb andb]. unfold Py.split. rewrite (split_key_value _ _ Hkey).
  reflexivity.
Qed.

(** A non-blank, non-comment line without an equals sign stops the load
    with the [ValueError] of the failed unpacking. *)
Lemma load_lines_malformed (line : string) (rest : list string) d :
  Py.strip line <> "" ->
  Py.startswith "#" line = false ->
  Py.has_char "=" (Py.strip line) = false ->
  load_lines (line :: rest) d = Raise ValueError.
Proof.
  intros Hblank Hhash Hno. cbn [load_lines]. rewrite Hhash.
  replace (Py.nonempty (Py.strip line)) with true
    by (destruct (Py.strip line); [contradiction|reflexivity]).
  cbn [negb andb]. unfold Py.split. rewrite (split_without_eq _ Hno).
  reflexivity.
Qed.

(** Lines that do not assign [key] leave its entry as it was. *)
Lemma load_lines_other_keys (key : string) (lines : list string) d m :
  (forall later value', In later lines ->
     Py.strip later <> key +:+ "=" +:+ value') ->
  load_lines lines d = Ok m ->
  m !! key = d !! key.
Proof.
  revert d. induction lines as [|line lines IH]; intros d Hother Hload.
  - simpl in Hload. now inversion Hload.
  - cbn [load_lines] in Hload.
    assert (Hrest : forall later value', In later lines ->
              Py.strip later <> key +:+ "=" +:+ value')
      by (intros later value' Hin; apply Hother; now right).
    destruct (Py.nonempty (Py.strip line) && negb (Py.startswith "#" line));
      [|now apply IH].
    unfold Py.split in Hload.
    destruct (Py.split_go "=" (Some 1%nat) 0 (Py.strip line))
      as [|k [|v [|x parts]]] eqn:Hsplit; try discriminate.
    rewrite (IH _ Hrest Hload).
    apply lookup_insert_ne. intros ->.
    apply (Hother line v); [now left|]. now apply split_two_parts.
Qed.

Lemma load_lines_ignores
    (pre post : list string) (line : string) (d : gmap string string) :
  Py.strip line = "" \/ Py.startswith "#" line = true ->
  load_lines (pre ++ line :: post) d = load_lines (pre ++ post) d.
Proof.
  intros Hskip. rewrite !load_lines_app.
  destruct (load_lines pre d) as [d'|e]; [|reflexivity].
  simpl. now apply load_lines_skip.
Qed.

(** C6, as the code has it.  A line that is empty after trimming, or
    whose first character (before any trimming) is [#], is ignored:
    construction gives the same result, store or failure, as for the file
    without that line. *)
Theorem blank_and_comment_lines_ignored
    (fs fs' : string -> option string) (values : gmap string string)
    (text text' : string) (pre post : list string) (line : string) :
  fs (default ".env" (values !! "env_file")) = Some text ->
  fs' (default ".env" (values !! "env_file")) = Some text' ->
  Py.readlines text = pre ++ line :: post ->
  Py.readlines text' = pre ++ post ->
  Py.strip line = "" \/ Py.startswith "#" line = true ->
  Env_init fs values = Env_init fs' values.
Proof.
  intros Hfs Hfs' Hlines Hlines' Hskip.
  unfold Env_init, _load_env_file.
  rewrite Hfs, Hfs', Hlines, Hlines'.
  now rewrite (load_lines_ignores pre post line ∅ Hskip).
Qed.

(** C7, as the code has it.  For a line that does not begin with [#] and
    whose trimmed text is KEY=VALUE (KEY without an equals sign),
    a construction that succeeds stores VALUE under KEY, provided no later
    line assigns KEY again.  VALUE is everything after the first equals
    sign of the trimmed line: further equals signs and whitespace right
    after the sign are kept, whitespace at the end of the line is not.
    Without an override, [Env_str] returns exactly the stored text. *)
Theorem stored_value_is_text_after_first_eq
    (fs : string -> option string) (values : gmap string string)
    (text : string) (pre post : list string) (line key value : string)
    (self : Env) :
  fs (default ".env" (values !! "env_file")) = Some text ->
  Py.readlines text = pre ++ line :: post ->
  Py.startswith "#" line = false ->
  Py.strip line = key +:+ "=" +:+ value ->
  Py.has_char "=" key = false ->
  (forall later value', In later post ->
     Py.strip later <> key +:+ "=" +:+ value') ->
  Env_init fs values = Ok self ->
  env_values self !! key = Some value
  /\ Env_str key self = (Ok (VStr value), self).
Proof.
  intros Hfs Hlines Hhash Hline Hkey Hlast Hinit.
  unfold Env_init, _load_env_file in Hinit. rewrite Hfs, Hlines in Hinit.
  rewrite load_lines_app in Hinit.
  destruct (load_lines pre ∅) as [d|e]; [|discriminate].
  cbn [rbind] in Hinit.
  rewrite (load_lines_assign _ _ _ _ _ Hhash Hline Hkey) in Hinit.
  destruct (load_lines post (<[key := value]> d)) as [m|e] eqn:Hpost;
    [|discriminate].
  inversion Hinit; subst self; clear Hinit.
  assert (Hstored : m !! key = Some value).
  { rewrite (load_lines_other_keys key post _ m Hlast Hpost).
    apply lookup_insert_eq. }
  split; [exact Hstored|].
  rewrite Env_str_run. unfold resolve. simpl. rewrite Hstored.
  rewrite lookup_empty. reflexivity.
Qed.

End Loading.

(** ** Splitting *)

Section Splitting.

Lemma prefix_nil_r (p : string) : String.prefix p "" = true -> p = "".
Proof. destruct p; [reflexivity|discriminate]. Qed.

Lemma prefix_cons_inv (a c : ascii) (p s : string) :
  String.prefix (String a p) (String c s) = true ->
  a = c /\ String.prefix p s = true.
Proof.
  cbn [String.prefix]. destruct (ascii_dec a c); [tauto|discriminate].
Qed.

Lemma prefix_cons_same (c : ascii) (p s : string) :
  String.prefix p s = true -> String.prefix (String c p) (String c s) = true.
Proof.
  intros Hp. cbn [String.prefix]. destruct (ascii_dec c c); [exact Hp|congruence].
Qed.

Lemma prefix_trans (p q s : string) :
  String.prefix p q = true -> String.prefix q s = true ->
  String.prefix p s = true.
Proof.
  revert q s. induction p as [|a p IH]; intros q s Hpq Hqs.
  - now destruct s.
  - destruct q as [|b q]; [discriminate|].
    destruct s as [|c s]; [discriminate|].
    apply prefix_cons_inv in Hpq as [-> Hpq].
    apply prefix_cons_inv in Hqs as [-> Hqs].
    apply prefix_cons_same. now apply (IH q).
Qed.

(** With nothing to skip, the first piece is a prefix of the text. *)
Lemma split_go_head_prefix (sep : string) budget s :
  exists p ps, Py.split_go sep budget 0 s = p :: ps /\ String.prefix p s = true.
Proof.
  induction s as [|c s (p & ps & Hsplit & Hpre)].
  - exists "", []. split; reflexivity.
  - cbn [Py.split_go].
    destruct (Py.may_split budget && String.prefix sep (String c s)).
    + eexists "", _. split; reflexivity.
    + rewrite Hsplit. exists (String c p), ps.
      split; [reflexivity|]. now apply prefix_cons_same.
Qed.

(** No piece of an unbounded split contains the separator. *)
Lemma split_go_pieces_free (sep : string) skip s :
  sep <> "" ->
  Forall (fun piece => Py.contains sep piece = false)
         (Py.split_go sep None skip s).
Proof.
  intros Hsep. revert skip. induction s as [|c s IH]; intros skip.
  - constructor; [|constructor].
    destruct sep; [contradiction|reflexivity].
  - destruct skip as [|k]; [|apply IH].
    cbn [Py.split_go Py.may_split andb].
    destruct (String.prefix sep (String c s)) eqn:Hcut.
    + constructor; [|apply IH].
      destruct sep; [contradiction|reflexivity].
    + destruct (split_go_head_prefix sep None s) as (p & ps & Hsplit & Hpre).
      specialize (IH 0%nat). rewrite Hsplit in *.
      inversion IH as [|? ? Hp Hps]; subst.
      constructor; [|exact Hps].
      cbn [Py.cons_head Py.contains]. rewrite Hp, orb_false_r.
      destruct (String.prefix sep (String c p)) eqn:Hin; [|reflexivity].
      rewrite (prefix_trans _ _ _ Hin (prefix_cons_same c _ _ Hpre)) in Hcut.
      discriminate.
Qed.

(** C9, as the code has it.  When the resolved value (what [Env_str]
    returns) is text and the delimiter is not empty, [Env_list] does not
    fail: it returns the trimmed pieces of the text, where the pieces,
    joined with the delimiter, give the text back and none of them
    contains the delimiter. *)
Theorem list_getter_splits_and_trims
    (key delimiter text : string) (self : Env) :
  fst (Env_str key self) = Ok (VStr text) ->
  delimiter <> "" ->
  exists items,
    Env_list key delimiter self = (Ok (map Py.strip items), self)
    /\ Py.join delimiter items = text
    /\ Forall (fun item => Py.contains delimiter item = false) items.
Proof.
  rewrite Env_str_run, Env_list_run. simpl fst. intros Hres Hsep.
  assert (Hsame : resolve self (Glist delimiter) key = Ok (VStr text))
    by exact Hres.
  rewrite Hsame. exists (Py.split_go delimiter None 0 text).
  split; [|split].
  - unfold convert_list. simpl. unfold Py.split.
    destruct delimiter; [contradiction|reflexivity].
  - now rewrite join_split_go.
  - now apply split_go_pieces_free.
Qed.

End Splitting.

(** ** Base64 *)

Section Base64Facts.
Import Base64.

Ltac mod_lia := zify; Z.div_mod_to_equations; lia.

Lemma is_data_not_pad (c : Z) : is_data c = true -> c <> PAD.
Proof. intros Hd ->. discriminate. Qed.

Lemma significant_pad t : significant (PAD :: t) = PAD :: significant t.
Proof. reflexivity. Qed.

Lemma significant_data c t :
  is_data c = true -> significant (c :: t) = c :: significant t.
Proof.
  intros Hd. unfold significant. cbn [List.filter].
  now rewrite Hd, orb_true_r.
Qed.

Lemma significant_junk c t :
  (c =? PAD) = false -> is_data c = false -> significant (c :: t) = significant t.
Proof.
  intros Hp Hd. unfold significant. cbn [List.filter]. now rewrite Hp, Hd.
Qed.

Lemma ndata_data c t : is_data c = true -> ndata (c :: t) = S (ndata t).
Proof. intros Hd. unfold ndata. cbn [List.filter]. now rewrite Hd. Qed.

Lemma ndata_other c t : is_data c = false -> ndata (c :: t) = ndata t.
Proof. intros Hd. unfold ndata. cbn [List.filter]. now rewrite Hd. Qed.

Lemma ndata_pad t : ndata (PAD :: t) = ndata t.
Proof. reflexivity. Qed.

Lemma completes_from_nil q p : ~ completes_from q p [].
Proof.
  intros (d & rest & [[H _]|[[H _]|(_ & _ & H)]]);
    try discriminate; now destruct d.
Qed.

(** A pad met with fewer than two characters in hand changes nothing. *)
Lemma completes_from_pad_early q p t :
  (q < 2)%nat -> completes_from q p (PAD :: t) <-> completes_from q p t.
Proof.
  intros Hq. split.
  - intros (d & rest & [[H Hn]|[[H Hn]|(Hq2 & _)]]); [| |lia].
    + destruct d as [|x d]; [change (ndata []) with 0%nat in Hn; mod_lia|].
      injection H as <- ->. rewrite ndata_pad in Hn.
      exists d, rest. now left.
    + destruct d as [|x d]; [change (ndata []) with 0%nat in Hn; mod_lia|].
      injection H as <- ->. rewrite ndata_pad in Hn.
      exists d, rest. right; now left.
  - intros (d & rest & [[-> Hn]|[[-> Hn]|(Hq2 & _)]]); [| |lia].
    + exists (PAD :: d), rest. left. now rewrite ndata_pad.
    + exists (PAD :: d), rest. right; left. now rewrite ndata_pad.
Qed.

(** The first of two pads after two characters is remembered. *)
Lemma completes_from_pad_two t :
  completes_from 2 0 (PAD :: t) <-> completes_from 2 1 t.
Proof.
  split.
  - intros (d & rest & [[H Hn]|[[H Hn]|(_ & Hp & _)]]); [| |discriminate].
    + destruct d as [|x d]; [change (ndata []) with 0%nat in Hn; mod_lia|].
      injection H as <- ->. rewrite ndata_pad in Hn.
      exists d, rest. now left.
    + destruct d as [|x d].
      * injection H as ->. exists [], rest. right; right. auto.
      * injection H as <- ->. rewrite ndata_pad in Hn.
        exists d, rest. right; now left.
  - intros (d & rest & [[-> Hn]|[[-> Hn]|(_ & _ & ->)]]).
    + exists (PAD :: d), rest. left. now rewrite ndata_pad.
    + exists (PAD :: d), rest. right; left. now rewrite ndata_pad.
    + exists [], rest. right; left. split; reflexivity.
Qed.

(** An alphabet character joins the group in hand and clears the pads. *)
Lemma completes_from_data q p c t :
  is_data c = true ->
  completes_from q p (c :: t) <-> completes_from ((q + 1) mod 4) 0 t.
Proof.
  intros Hd. pose proof (is_data_not_pad _ Hd) as Hc. split.
  - intros (d & rest & [[H Hn]|[[H Hn]|(_ & _ & H)]]); [| |congruence].
    + destruct d as [|x d]; [simpl in H; congruence|].
      injection H as <- ->. rewrite (ndata_data _ _ Hd) in Hn.
      exists d, rest. left. split; [reflexivity|mod_lia].
    + destruct d as [|x d]; [simpl in H; congruence|].
      injection H as <- ->. rewrite (ndata_data _ _ Hd) in Hn.
      exists d, rest. right; left. split; [reflexivity|mod_lia].
  - intros (d & rest & [[-> Hn]|[[-> Hn]|(_ & Hp & _)]]); [| |discriminate].
    + exists (c :: d), rest. left. rewrite (ndata_data _ _ Hd).
      split; [reflexivity|mod_lia].
    + exists (c :: d), rest. right; left. rewrite (ndata_data _ _ Hd).
      split; [reflexivity|mod_lia].
Qed.

Lemma shift_in_state st v :
  (quad_pos st < 4)%nat ->
  quad_pos (fst (shift_in st v)) = ((quad_pos st + 1) mod 4)%nat
  /\ pads (fst (shift_in st v)) = 0%nat.
Proof.
  destruct st as [q l p]. unfold shift_in. cbn [quad_pos].
  destruct q as [|[|[|[|q]]]]; intros Hq; try lia; split; reflexivity.
Qed.

(** The scanner returns bytes exactly when the alphabet characters make
    whole groups of four or padding completes a group. *)
Lemma scan_succeeds_iff (t : list Z) (st : state) :
  (quad_pos st < 4)%nat ->
  (quad_pos st = 2%nat -> (pads st <= 1)%nat) ->
  (exists out, scan st t = Some out)
  <-> ((quad_pos st + ndata t) mod 4 = 0)%nat
      \/ completes_from (quad_pos st) (pads st) (significant t).
Proof.
  revert st. induction t as [|c t IH]; intros st Hq Hp.
  - cbn [scan]. change (ndata []) with 0%nat. split.
    + intros [out Hout]. left.
      destruct (Nat.eqb_spec (quad_pos st) 0) as [->|]; [reflexivity|discriminate].
    + intros [Hz|Hc]; [|now apply completes_from_nil in Hc].
      assert (quad_pos st = 0%nat) as -> by mod_lia. now exists [].
  - cbn [scan]. destruct (c =? PAD) eqn:Hpad.
    + apply Z.eqb_eq in Hpad as ->.
      rewrite significant_pad, ndata_pad.
      destruct st as [q l p]; cbn [quad_pos pads leftchar] in *.
      destruct q as [|[|[|[|q]]]]; try lia; cbn [Nat.leb].
      * rewrite (IH {| quad_pos := 0; leftchar := l; pads := p |}); cbn; try lia.
        now rewrite completes_from_pad_early by lia.
      * rewrite (IH {| quad_pos := 1; leftchar := l; pads := p |}); cbn; try lia.
        now rewrite completes_from_pad_early by lia.
      * assert (p = 0 \/ p = 1)%nat as [-> | ->] by lia; cbn.
        -- rewrite (IH {| quad_pos := 2; leftchar := l; pads := 1 |}); cbn; try lia.
           now rewrite completes_from_pad_two.
        -- split; [intros _|intros _; now exists []].
           right. exists [], (significant t). right; right. auto.
      * split; [intros _|intros _; now exists []].
        right. exists [], (significant t). left. split; reflexivity.
    + destruct (table_a2b c) as [v|] eqn:Htab.
      * assert (Hd : is_data c = true) by (unfold is_data; now rewrite Htab).
        rewrite (significant_data _ _ Hd), (ndata_data _ _ Hd).
        rewrite (completes_from_data _ _ _ _ Hd).
        destruct (shift_in_state st v Hq) as [Hq' Hp'].
        destruct (shift_in st v) as [st' o] eqn:Hshift. cbn [fst] in Hq', Hp'.
        specialize (IH st'). rewrite Hq', Hp' in IH.
        assert (Hstep : (exists out,
                   match scan st' t with
                   | Some out => Some (emit o out)
                   | None => None
                   end = Some out)
                 <-> exists out, scan st' t = Some out).
        { destruct (scan st' t) as [out|].
          - split; intros _; eexists; reflexivity.
          - split; intros [out Hout]; discriminate. }
        rewrite Hstep, IH by mod_lia.
        replace (((quad_pos st + 1) mod 4 + ndata t) mod 4)%nat
          with ((quad_pos st + S (ndata t)) mod 4)%nat by mod_lia.
        reflexivity.
      * assert (Hd : is_data c = false) by (unfold is_data; now rewrite Htab).
        rewrite (significant_junk _ _ Hpad Hd), (ndata_other _ _ Hd).
        now apply IH.
Qed.

(** *** Decoding what the standard encoder wrote *)

Lemma all_bytes_forall (P : Z -> bool) :
  forallb P all_bytes = true -> forall a, 0 <= a < 256 -> P a = true.
Proof.
  intros Hall a Ha. rewrite forallb_forall in Hall. apply Hall.
  apply in_map_iff. exists (Z.to_nat a). split; [lia|]. apply in_seq. lia.
Qed.

Lemma all_bytes_forall2 (P : Z -> Z -> bool) :
  forallb (fun a => forallb (P a) all_bytes) all_bytes = true ->
  forall a b, 0 <= a < 256 -> 0 <= b < 256 -> P a b = true.
Proof.
  intros Hall a b Ha Hb.
  apply (all_bytes_forall (P a)); [|exact Hb].
  now apply (all_bytes_forall (fun a => forallb (P a) all_bytes)).
Qed.

Lemma alphabet_char_decodes (i : Z) :
  is_sextet i = true ->
  (alphabet_char i =? PAD) = false /\ table_a2b (alphabet_char i) = Some i.
Proof.
  intros Hi.
  pose proof (all_bytes_forall
    (fun i => implb (is_sextet i)
       (negb (alphabet_char i =? PAD)
        && (match table_a2b (alphabet_char i) with
            | Some j => j =? i
            | None => false
            end)))
    ltac:(vm_compute; reflexivity) i ltac:(unfold is_sextet in Hi; lia))
    as Hcheck.
  cbv beta in Hcheck. rewrite Hi in Hcheck. cbn [implb] in Hcheck.
  apply andb_true_iff in Hcheck as [Hpad Htab].
  split; [now apply negb_true_iff|].
  destruct (table_a2b (alphabet_char i)) as [j|]; [|discriminate].
  apply Z.eqb_eq in Htab. now subst.
Qed.

Lemma first_pair_facts (a b : Z) :
  0 <= a < 256 -> 0 <= b < 256 ->
  is_sextet (sextet1 a) = true
  /\ is_sextet (sextet2 a b) = true
  /\ u8 (Z.lor (Z.shiftl (sextet1 a) 2) (Z.shiftr (sextet2 a b) 4)) = a
  /\ Z.land (sextet2 a b) 15 = Z.shiftr b 4.
Proof.
  intros Ha Hb.
  pose proof (all_bytes_forall2
    (fun a b =>
       is_sextet (sextet1 a) && is_sextet (sextet2 a b)
       && (u8 (Z.lor (Z.shiftl (sextet1 a) 2) (Z.shiftr (sextet2 a b) 4)) =? a)
       && (Z.land (sextet2 a b) 15 =? Z.shiftr b 4))
    ltac:(vm_compute; reflexivity) a b Ha Hb) as Hcheck.
  cbv beta in Hcheck.
  apply andb_true_iff in Hcheck as [Hcheck Hd].
  apply andb_true_iff in Hcheck as [Hcheck Hc'].
  apply andb_true_iff in Hcheck as [Ha' Hb'].
  apply Z.eqb_eq in Hc', Hd. tauto.
Qed.

Lemma second_pair_facts (b c : Z) :
  0 <= b < 256 -> 0 <= c < 256 ->
  is_sextet (sextet3 b c) = true
  /\ is_sextet (sextet4 c) = true
  /\ u8 (Z.lor (Z.shiftl (Z.shiftr b 4) 4) (Z.shiftr (sextet3 b c) 2)) = b
  /\ u8 (Z.lor (Z.shiftl (Z.land (sextet3 b c) 3) 6) (sextet4 c)) = c.
Proof.
  intros Hb Hc.
  pose proof (all_bytes_forall2
    (fun b c =>
       is_sextet (sextet3 b c) && is_sextet (sextet4 c)
       && (u8 (Z.lor (Z.shiftl (Z.shiftr b 4) 4) (Z.shiftr (sextet3 b c) 2)) =? b)
       && (u8 (Z.lor (Z.shiftl (Z.land (sextet3 b c) 3) 6) (sextet4 c)) =? c))
    ltac:(vm_compute; reflexivity) b c Hb Hc) as Hcheck.
  cbv beta in Hcheck.
  apply andb_true_iff in Hcheck as [Hcheck Hd].
  apply andb_true_iff in Hcheck as [Hcheck Hc'].
  apply andb_true_iff in Hcheck as [Ha' Hb'].
  apply Z.eqb_eq in Hc', Hd. tauto.
Qed.

(** One step of the scanner on an alphabet character. *)
Lemma scan_alphabet_char st i rest :
  is_sextet i = true ->
  scan st (alphabet_char i :: rest)
  = match scan (fst (shift_in st i)) rest with
    | Some out => Some (emit (snd (shift_in st i)) out)
    | None => None
    end.
Proof.
  intros Hi. destruct (alphabet_char_decodes i Hi) as [Hpad Htab].
  cbn [scan]. rewrite Hpad, Htab. now destruct (shift_in st i).
Qed.

Lemma alphabet_char_ascii (i : Z) :
  is_sextet i = true -> 0 <= alphabet_char i < 128.
Proof.
  intros Hi.
  pose proof (all_bytes_forall
    (fun i => implb (is_sextet i)
       ((0 <=? alphabet_char i) && (alphabet_char i <? 128)))
    ltac:(vm_compute; reflexivity) i ltac:(unfold is_sextet in Hi; lia))
    as Hcheck.
  cbv beta in Hcheck. rewrite Hi in Hcheck. cbn [implb] in Hcheck. lia.
Qed.

Ltac encoded_ascii :=
  repeat (constructor;
          [first [now apply alphabet_char_ascii | assumption]|]);
  first [constructor | assumption].

(** The scanner undoes the encoder, and the encoder writes ASCII only. *)
Lemma scan_encode (bs : list Z) :
  Forall (fun a => 0 <= a < 256) bs ->
  scan start (encode bs) = Some bs
  /\ Forall (fun c => 0 <= c < 128) (encode bs).
Proof.
  remember (length bs) as n eqn:Hn. revert bs Hn.
  induction n as [n IH] using lt_wf_ind. intros bs Hn Hbs.
  assert (Hpad : 0 <= PAD < 128) by (unfold PAD; lia).
  destruct bs as [|a [|b [|c rest]]].
  - split; [reflexivity|constructor].
  - inversion Hbs as [|? ? Ha _]; subst.
    destruct (first_pair_facts a 0 Ha ltac:(lia)) as (H1 & H2 & Hbyte & _).
    split.
    + cbn [encode]. rewrite (scan_alphabet_char _ _ _ H1).
      unfold start at 1 2. cbn [shift_in quad_pos leftchar fst snd].
      rewrite (scan_alphabet_char _ _ _ H2).
      cbn [shift_in quad_pos leftchar fst snd scan emit].
      rewrite Hbyte. reflexivity.
    + cbn [encode]. encoded_ascii.
  - inversion Hbs as [|? ? Ha Hbs']; subst.
    inversion Hbs' as [|? ? Hb _]; subst.
    destruct (first_pair_facts a b Ha Hb) as (H1 & H2 & Hbyte1 & Hleft).
    destruct (second_pair_facts b 0 Hb ltac:(lia)) as (H3 & _ & Hbyte2 & _).
    split.
    + cbn [encode]. rewrite (scan_alphabet_char _ _ _ H1).
      unfold start at 1 2. cbn [shift_in quad_pos leftchar fst snd].
      rewrite (scan_alphabet_char _ _ _ H2).
      cbn [shift_in quad_pos leftchar fst snd].
      rewrite (scan_alphabet_char _ _ _ H3).
      cbn [shift_in quad_pos leftchar fst snd scan emit].
      rewrite Hbyte1, Hleft, Hbyte2. reflexivity.
    + cbn [encode]. encoded_ascii.
  - inversion Hbs as [|? ? Ha Hbs']; subst.
    inversion Hbs' as [|? ? Hb Hbs'']; subst.
    inversion Hbs'' as [|? ? Hc Hrest]; subst.
    destruct (first_pair_facts a b Ha Hb) as (H1 & H2 & Hbyte1 & Hleft).
    destruct (second_pair_facts b c Hb Hc) as (H3 & H4 & Hbyte2 & Hbyte3).
    destruct (IH (length rest) ltac:(simpl in *; lia) rest eq_refl Hrest)
      as [IHscan IHascii].
    split.
    + cbn [encode]. rewrite (scan_alphabet_char _ _ _ H1).
      unfold start at 1 2. cbn [shift_in quad_pos leftchar fst snd].
      rewrite (scan_alphabet_char _ _ _ H2).
      cbn [shift_in quad_pos leftchar fst snd].
      rewrite (scan_alphabet_char _ _ _ H3).
      cbn [shift_in quad_pos leftchar fst snd].
      rewrite (scan_alphabet_char _ _ _ H4).
      cbn [shift_in quad_pos leftchar fst snd].
      change {| quad_pos := 0; leftchar := 0; pads := 0 |} with start.
      rewrite IHscan.
      cbn [emit]. rewrite Hbyte1, Hleft, Hbyte2, Hbyte3. reflexivity.
    + cbn [encode]. encoded_ascii.
Qed.

Lemma Z_of_byte_range (b : byte) : 0 <= Z_of_byte b < 256.
Proof.
  unfold Z_of_byte. pose proof (Byte.to_N_bounded b). lia.
Qed.

Lemma byte_of_Z_of_byte (b : byte) : byte_of_Z (Z_of_byte b) = b.
Proof. destruct b; reflexivity. Qed.

Lemma Z_of_byte_of_Z (z : Z) : 0 <= z < 256 -> Z_of_byte (byte_of_Z z) = z.
Proof.
  intros Hz. apply Z.eqb_eq.
  now apply (all_bytes_forall (fun z => Z_of_byte (byte_of_Z z) =? z)
               ltac:(vm_compute; reflexivity)).
Qed.

Lemma byte_of_Z_ascii (z : Z) :
  0 <= z < 128 -> is_ascii_char (ascii_of_byte (byte_of_Z z)) = true.
Proof.
  intros Hz.
  pose proof (all_bytes_forall
    (fun z => implb (z <? 128) (is_ascii_char (ascii_of_byte (byte_of_Z z))))
    ltac:(vm_compute; reflexivity) z ltac:(lia)) as Hcheck.
  cbv beta in Hcheck.
  replace (z <? 128) with true in Hcheck by (symmetry; apply Z.ltb_lt; lia).
  exact Hcheck.
Qed.

Lemma isascii_string_of_bytes (cs : list Z) :
  Forall (fun c => 0 <= c < 128) cs ->
  isascii (string_of_list_byte (map byte_of_Z cs)) = true.
Proof.
  unfold string_of_list_byte.
  induction 1 as [|c cs Hc _ IH]; [reflexivity|].
  cbn [map string_of_list_ascii isascii].
  now rewrite (byte_of_Z_ascii c Hc), IH.
Qed.

Lemma map_Z_of_byte_of_Z (zs : list Z) :
  Forall (fun z => 0 <= z < 256) zs -> map Z_of_byte (map byte_of_Z zs) = zs.
Proof.
  induction 1 as [|z zs Hz _ IH]; [reflexivity|].
  cbn [map]. now rewrite (Z_of_byte_of_Z z Hz), IH.
Qed.

Lemma map_byte_of_Z_of_byte (bs : list byte) :
  map byte_of_Z (map Z_of_byte bs) = bs.
Proof.
  induction bs as [|b bs IH]; [reflexivity|].
  cbn [map]. now rewrite byte_of_Z_of_byte, IH.
Qed.

(** [b64decode] is a left inverse of the standard encoder. *)
Lemma b64decode_standard_b64encode (bs : list byte) :
  b64decode (VStr (standard_b64encode bs)) = Ok bs.
Proof.
  assert (Hbs : Forall (fun a => 0 <= a < 256) (map Z_of_byte bs)).
  { induction bs as [|b bs IH]; cbn [map]; constructor;
      [apply Z_of_byte_range|exact IH]. }
  destruct (scan_encode _ Hbs) as [Hscan Hascii].
  unfold b64decode, standard_b64encode.
  rewrite (isascii_string_of_bytes _ Hascii).
  unfold a2b_base64. rewrite list_byte_of_string_of_list_byte.
  rewrite map_Z_of_byte_of_Z, Hscan.
  - now rewrite map_byte_of_Z_of_byte.
  - eapply Forall_impl; [exact Hascii|]. intros c Hc. cbv beta in *. lia.
Qed.

Lemma completes_from_start (t : list Z) :
  completes_from 0 0 t <-> completes t.
Proof.
  unfold completes_from, completes.
  split; intros (d & rest & H); exists d, rest.
  - destruct H as [H|[H|(H & _)]]; [now left|now right|discriminate].
  - destruct H as [H|H]; [now left|right; now left].
Qed.

(** When the text is ASCII, the getter fails exactly when the scanner
    does; otherwise it fails in [b64decode] itself. *)
Lemma convert_base64_text (key text : string) :
  convert_base64 key (VStr text)
  = if isascii text then
      match scan start (codes text) with
      | Some out => Ok (map byte_of_Z out)
      | None => Raise (EnvParseError (NotValidBase64 (VStr text) key))
      end
    else Raise (EnvParseError (NotValidBase64 (VStr text) key)).
Proof.
  unfold convert_base64, b64decode, a2b_base64, codes.
  destruct (isascii text); [|reflexivity].
  now destruct (scan start _).
Qed.

(** C8, as the code has it.  On a resolved value that is text, the
    base64 getter returns bytes or raises the [EnvParseError] "not valid
    base64 encoded data".  It decodes what the standard encoder writes.
    It fails exactly when the text has a character that is not ASCII or,
    counting only alphabet characters and pads, the alphabet characters do
    not make whole groups of four and no unfinished group is completed by
    padding.  ASCII characters outside the alphabet are dropped and do not
    make it fail. *)
Theorem base64_getter_decodes (key text : string) (self : Env) :
  fst (Env_str key self) = Ok (VStr text) ->
  (forall bs, text = standard_b64encode bs ->
     fst (Env_base64_decode key self) = Ok bs)
  /\ (fst (Env_base64_decode key self)
        = Raise (EnvParseError (NotValidBase64 (VStr text) key))
      <-> isascii text = false
          \/ ((ndata (codes text) mod 4)%nat <> 0%nat
              /\ ~ completes (significant (codes text))))
  /\ ((exists bs, fst (Env_base64_decode key self) = Ok bs)
      \/ fst (Env_base64_decode key self)
           = Raise (EnvParseError (NotValidBase64 (VStr text) key))).
Proof.
  rewrite Env_str_run, (Env_base64_decode_run key self Gstr eq_refl).
  simpl fst. intros ->. cbn [rbind].
  split; [|split].
  - intros bs ->.
    pose proof (b64decode_standard_b64encode bs) as Hdec.
    unfold convert_base64. now rewrite Hdec.
  - rewrite convert_base64_text.
    pose proof (scan_succeeds_iff (codes text) start ltac:(cbn; lia)
                  ltac:(cbn; lia)) as Hscan.
    cbn [quad_pos pads start] in Hscan.
    rewrite completes_from_start in Hscan.
    change (0 + ndata (codes text))%nat with (ndata (codes text)) in Hscan.
    destruct (isascii text); [|split; [now left|reflexivity]].
    destruct (scan start (codes text)) as [out|].
    + split; [discriminate|].
      intros [Hne|[Hmod Hcomp]]; [discriminate|].
      destruct Hscan as [Hfwd _].
      destruct (Hfwd ltac:(now exists out)); contradiction.
    + split; [|reflexivity]. intros _. right.
      split.
      * intros Hmod. destruct Hscan as [_ Hbwd].
        destruct (Hbwd (or_introl Hmod)) as [out Hout]. discriminate.
      * intros Hcomp. destruct Hscan as [_ Hbwd].
        destruct (Hbwd (or_intror Hcomp)) as [out Hout]. discriminate.
  - rewrite convert_base64_text.
    destruct (isascii text); [|now right].
    destruct (scan start (codes text)); [left; eauto|now right].
Qed.

End Base64Facts.

(** ** Concrete runs *)

(** The assertions of [test.py] that stay inside the module. *)
Example test_int : fst (Env_int (L := bare_library) "PORT" fixture) = Ok 8080.
Proof. vm_compute. reflexivity. Qed.

Example test_bool : fst (Env_bool "IS_ACTIVE" fixture) = Ok true.
Proof. vm_compute. reflexivity. Qed.

Example test_list : fst (Env_list "SAMPLE_LIST" "," fixture) = Ok ["1"; "2"; "3"].
Proof. vm_compute. reflexivity. Qed.

Example test_base64_decode :
  fst (Env_base64_decode "BASE64_IMAGE" fixture)
  = Ok (list_byte_of_string "hello world").
Proof. vm_compute. reflexivity. Qed.

Example test_port_validation :
  fst (Env_port (L := bare_library) "PORT" fixture) = Ok 8080
  /\ fst (seq (register_parser "PORT" (constantly (VStr "99999")))
              (Env_port (L := bare_library) "PORT") fixture)
     = Raise (EnvParseError (NotValidPort (VStr "99999") "PORT"))
  /\ fst (seq (register_parser "PORT" (constantly (VStr "0")))
              (Env_port (L := bare_library) "PORT") fixture)
     = Raise (EnvParseError (NotValidPort (VStr "0") "PORT")).
Proof. repeat split; vm_compute; reflexivity. Qed.

Example test_invalid_base64 :
  fst (seq (register_parser "BASE64_IMAGE" (constantly (VStr "invalid_base64")))
           (Env_base64_decode "BASE64_IMAGE") fixture)
  = Raise (EnvParseError (NotValidBase64 (VStr "invalid_base64") "BASE64_IMAGE")).
Proof. vm_compute. reflexivity. Qed.

Example test_missing_key :
  fst (Env_str "MISSING_KEY" fixture)
  = Raise (EnvParseError (KeyNotFound "MISSING_KEY")).
Proof. vm_compute. reflexivity. Qed.

(** C1 fails on [Env_bool].  The stored text is [ON]; the override
    answers [yes] to exactly that text.  Applied to the stored text and then
    converted, its answer gives [True]; the getter lower-cases the text
    before calling the override, which therefore sees [on], answers [no],
    and the getter returns [False]. *)
Theorem bool_override_gets_lowercased_text :
  Env_bool "FLAG" flag_env = (Ok false, flag_env)
  /\ env_values flag_env !! "FLAG" = Some "ON"
  /\ rbind (on_means_yes "ON") (convert_bool "FLAG") = Ok true.
Proof. repeat split; vm_compute; reflexivity. Qed.

Lemma missing_key_raises_witness :
  call (L := bare_library) Gport "MISSING_KEY" fixture
  = (Raise (EnvParseError (KeyNotFound "MISSING_KEY")), fixture).
Proof. apply (missing_key_raises (L := bare_library)). reflexivity. Defined.

Lemma port_range_check_witness :
  (fst (Env_str "PORT" fixture) = Ok (VStr "8080")
   /\ py_int (L := bare_library) (VStr "8080") = Ok 8080
   /\ fst (Env_port (L := bare_library) "PORT" fixture) = Ok 8080)
  /\ (fst (Env_str "PORT" big_port_env) = Ok (VStr "99999")
      /\ fst (Env_port (L := bare_library) "PORT" big_port_env)
         = Raise (EnvParseError (NotValidPort (VStr "99999") "PORT")))
  /\ (fst (Env_str "IS_ACTIVE" fixture) = Ok (VStr "true")
      /\ Py.int_of_str 4300 "true" = None
      /\ fst (Env_port (L := bare_library) "IS_ACTIVE" fixture)
         = Raise (EnvParseError (NotValidInteger (VStr "true") "IS_ACTIVE"))).
Proof.
  split; [|split].
  - split; [reflexivity|]. split; [reflexivity|].
    destruct (port_range_check (L := bare_library) "PORT" fixture
                (VStr "8080") eq_refl) as [Hnum _].
    destruct (Hnum 8080 eq_refl) as [Hiff _]. apply Hiff. lia.
  - split; [reflexivity|].
    destruct (port_range_check (L := bare_library) "PORT" big_port_env
                (VStr "99999") eq_refl) as [Hnum _].
    destruct (Hnum 99999 eq_refl) as [_ Hout]. apply Hout. lia.
  - split; [reflexivity|]. split; [reflexivity|].
    destruct (port_range_check (L := bare_library) "IS_ACTIVE" fixture
                (VStr "true") eq_refl) as [_ Htext].
    apply (Htext "true"); reflexivity.
Defined.

(** C4 as stated fails: a value that is not numeric does not always give a
    conversion error.  When the override returns [None], or a list, [int]
    raises [TypeError]; the getter catches [ValueError] only, so the
    [TypeError] escapes. *)
Lemma port_non_text_value_raises_TypeError :
  fst (seq (register_parser "PORT" (constantly VNone))
           (Env_port (L := bare_library) "PORT") fixture)
    = Raise TypeError
  /\ fst (seq (register_parser "PORT" (constantly (VList [])))
              (Env_port (L := bare_library) "PORT") fixture)
     = Raise TypeError.
Proof. split; vm_compute; reflexivity. Qed.

(** C5 fails on the code.  A file whose second line is [FOO] does not load,
    and the exception is the [ValueError] of the failed unpacking: it is
    not caught and turned into [EnvParseError] as the missing file is. *)
Theorem malformed_line_raises_ValueError :
  _load_env_file (one_file ("A=1" +:+ NL +:+ "FOO" +:+ NL)) ∅ = Raise ValueError
  /\ Env_init (one_file ("A=1" +:+ NL +:+ "FOO" +:+ NL)) ∅ = Raise ValueError.
Proof. split; vm_compute; reflexivity. Qed.

(** C6 as stated fails: a line that starts with [#] only after trimming is
    not a comment for the loader.  It is loaded like any other line: with
    an equals sign it adds an entry, without one it stops the load. *)
Lemma indented_comment_is_loaded :
  Py.startswith "#" (Py.strip (" #A=1" +:+ NL)) = true
  /\ (exists d, load_lines [" #A=1" +:+ NL] ∅ = Ok d /\ d !! "#A" = Some "1")
  /\ Py.startswith "#" (Py.strip (" # a note" +:+ NL)) = true
  /\ load_lines [" # a note" +:+ NL] ∅ = Raise ValueError.
Proof.
  split; [reflexivity|]. split; [|split; reflexivity].
  eexists. split; vm_compute; reflexivity.
Qed.

Lemma blank_and_comment_lines_ignored_witness :
  Py.startswith "#" ("# settings" +:+ NL) = true
  /\ Env_init (one_file ("A=1" +:+ NL +:+ "# settings" +:+ NL +:+ "B=2" +:+ NL)) ∅
     = Env_init (one_file ("A=1" +:+ NL +:+ "B=2" +:+ NL)) ∅.
Proof.
  split; [reflexivity|].
  apply (blank_and_comment_lines_ignored _ _ ∅
           ("A=1" +:+ NL +:+ "# settings" +:+ NL +:+ "B=2" +:+ NL)
           ("A=1" +:+ NL +:+ "B=2" +:+ NL)
           ["A=1" +:+ NL] ["B=2" +:+ NL] ("# settings" +:+ NL)).
  - reflexivity.
  - reflexivity.
  - vm_compute. reflexivity.
  - vm_compute. reflexivity.
  - right. reflexivity.
Defined.

(** C7 as stated fails: whitespace at the end of the value is not stored.
    The line [K=v ] (with a trailing space) stores [v]. *)
Lemma trailing_whitespace_is_dropped :
  exists self,
    Env_init (one_file ("K=v " +:+ NL)) ∅ = Ok self
    /\ env_values self !! "K" = Some "v"
    /\ fst (Env_str "K" self) <> Ok (VStr "v ").
Proof.
  eexists. split; [vm_compute; reflexivity|].
  split; [vm_compute; reflexivity|]. vm_compute. discriminate.
Qed.

Lemma stored_value_is_text_after_first_eq_witness :
  exists self,
    Env_init (one_file ("A=1" +:+ NL +:+ "URL= http://h/?a=b  " +:+ NL)) ∅
      = Ok self
    /\ env_values self !! "URL" = Some " http://h/?a=b"
    /\ Env_str "URL" self
       = (Ok (VStr " http://h/?a=b"), self).
Proof.
  eexists. split; [vm_compute; reflexivity|].
  apply (stored_value_is_text_after_first_eq
           (one_file ("A=1" +:+ NL +:+ "URL= http://h/?a=b  " +:+ NL)) ∅
           ("A=1" +:+ NL +:+ "URL= http://h/?a=b  " +:+ NL)
           ["A=1" +:+ NL] [] ("URL= http://h/?a=b  " +:+ NL)
           "URL" " http://h/?a=b").
  - reflexivity.
  - vm_compute. reflexivity.
  - reflexivity.
  - vm_compute. reflexivity.
  - reflexivity.
  - intros later value' [].
  - vm_compute. reflexivity.
Defined.

(** C8 as stated fails: a character outside the alphabet does not make
    the getter fail.  The fixture's text with a space and an exclamation
    mark inserted still decodes to [hello world]. *)
Lemma base64_skips_foreign_characters :
  let self := {| env_values := <["B" := "aGVsbG8g d29y!bGQ="]> ∅;
                 custom_parsers := ∅ |} in
  fst (Env_base64_decode "B" self)
    = Ok (list_byte_of_string "hello world")
  /\ Base64.is_data 32 = false
  /\ Base64.is_data 33 = false.
Proof. repeat split; vm_compute; reflexivity. Qed.

Lemma base64_getter_decodes_witness :
  fst (Env_str "BASE64_IMAGE" fixture)
    = Ok (VStr "aGVsbG8gd29ybGQ=")
  /\ fst (Env_base64_decode "BASE64_IMAGE" fixture)
     = Ok (list_byte_of_string "hello world").
Proof.
  split; [reflexivity|].
  destruct (base64_getter_decodes "BASE64_IMAGE"
              "aGVsbG8gd29ybGQ=" fixture eq_refl) as [Hdec _].
  apply Hdec. vm_compute. reflexivity.
Defined.

(** C9 as stated fails: the list getter raises [ValueError] on an empty
    delimiter, and [AttributeError] when the override returned something
    that is not text. *)
Lemma list_getter_can_fail :
  Env_list "SAMPLE_LIST" "" fixture
    = (Raise ValueError, fixture)
  /\ fst (seq (register_parser "SAMPLE_LIST" (constantly (VInt 123)))
              (Env_list "SAMPLE_LIST" ",") fixture)
     = Raise AttributeError.
Proof. split; vm_compute; reflexivity. Qed.

Lemma list_getter_splits_and_trims_witness :
  exists items,
    Env_list "SAMPLE_LIST" "," fixture
      = (Ok (map Py.strip items), fixture)
    /\ Py.join "," items = "1,2,3"
    /\ Forall (fun item => Py.contains "," item = false) items.
Proof.
  apply (list_getter_splits_and_trims).
  - reflexivity.
  - discriminate.
Defined.

(** * Further properties of the getters *)

Section GetterFacts.
Context {L : Library}.

(** An exception raised by the override is never wrapped: every getter
    lets it through unchanged, since the override runs before the [try]. *)
Theorem override_error_propagates (g : getter) (key raw : string)
    (f : string -> result pyval) (e : exn) (self : Env) :
  env_values self !! key = Some raw ->
  custom_parsers self !! key = Some (Callable f) ->
  f (override_input g raw) = Raise e ->
  call g key self = (Raise e, self).
Proof.
  intros Hraw Hf He. rewrite call_run. unfold resolve.
  rewrite Hraw, Hf. cbn [apply_override]. rewrite He. reflexivity.
Qed.

(** Registration and assignment are per key: after [register_parser key]
    or [env_values[key] = raw], every getter gives for any other key what
    it gave before. *)
Theorem other_keys_unaffected (g : getter) (key key' raw : string)
    (parser_func : pyobject) (self : Env) :
  key <> key' ->
  fst (call g key' (snd (register_parser key parser_func self)))
    = fst (call g key' self)
  /\ fst (call g key' (snd (set_env_value key raw self)))
     = fst (call g key' self).
Proof.
  intros Hne. rewrite !call_run. cbn [fst]. split.
  - destruct parser_func as [f|v]; [|reflexivity].
    unfold resolve. cbn. now rewrite lookup_insert_ne.
  - unfold resolve. cbn. now rewrite lookup_insert_ne.
Qed.

(** The last accepted registration wins, and a rejected one (an object
    that is not callable) raises [EnvParseError] and leaves the earlier
    override in force. *)
Theorem last_registration_wins (g : getter) (key : string)
    (f f' : string -> result pyval) (v : pyval) (self : Env) :
  let self1 := snd (register_parser key (Callable f) self) in
  let self2 := snd (register_parser key (Callable f') self1) in
  register_parser key (NotCallable v) self2
    = (Raise (EnvParseError (ParserNotCallable key)), self2)
  /\ fst (call g key self2)
     = match env_values self !! key with
       | Some raw => rbind (f' (override_input g raw)) (convert g key)
       | None => Raise (EnvParseError (KeyNotFound key))
       end.
Proof.
  cbn zeta. split; [reflexivity|].
  rewrite call_run. cbn [fst]. unfold resolve. cbn.
  destruct (env_values self !! key) as [raw|]; [|reflexivity].
  now rewrite lookup_insert_eq.
Qed.

(** [port] refines [int]: what [port] returns, [int] returns too, and it
    lies in 1..65535; whatever [int] raises, [port] raises the same; and
    when [int] returns a number out of range, [port] raises the
    "not a valid port number" error. *)
Theorem port_refines_int (key : string) (self : Env) :
  (forall n, fst (Env_port key self) = Ok n ->
     fst (Env_int key self) = Ok n /\ 1 <= n <= 65535)
  /\ (forall e, fst (Env_int key self) = Raise e ->
        fst (Env_port key self) = Raise e)
  /\ (forall n, fst (Env_int key self) = Ok n -> ~ 1 <= n <= 65535 ->
        exists value,
          fst (Env_port key self)
            = Raise (EnvParseError (NotValidPort value key))).
Proof.
  rewrite Env_port_run, (Env_int_run key self Gport eq_refl). cbn [fst].
  destruct (resolve self Gport key) as [value|e0]; cbn [rbind].
  - destruct (convert_int key value) as [m|e1]; cbn [rbind].
    + unfold check_port.
      destruct ((1 <=? m) && (m <=? 65535)) eqn:Hrange.
      * apply andb_true_iff in Hrange as [H1 H2].
        apply Z.leb_le in H1. apply Z.leb_le in H2.
        split; [|split].
        -- intros n Hn. inversion Hn; subst. split; [reflexivity|lia].
        -- intros e He. discriminate.
        -- intros n Hn Hout. inversion Hn; subst. lia.
      * split; [|split].
        -- intros n Hn. discriminate.
        -- intros e He. discriminate.
        -- intros n Hn _. now exists value.
    + split; [|split].
      * intros n Hn. discriminate.
      * intros e He. exact He.
      * intros n Hn. discriminate.
  - split; [|split].
    + intros n Hn. discriminate.
    + intros e He. exact He.
    + intros n Hn. discriminate.
Qed.

(** [base64_image] is [base64_decode] followed by the image library: a
    failure of the decoding is raised as it is, without the library being
    consulted, and any exception of the library becomes the
    [EnvParseError] "Error loading image from base64 data". *)
Theorem image_getter_after_decode (key : string) (self : Env) :
  (forall e, fst (Env_base64_decode key self) = Raise e ->
     fst (Env_base64_image key self) = Raise e)
  /\ (forall decoded, fst (Env_base64_decode key self) = Ok decoded ->
        fst (Env_base64_image key self)
        = match lib_Image_open decoded with
          | Ok image => Ok image
          | Raise e => Raise (EnvParseError (ImageLoadError e))
          end).
Proof.
  unfold Env_base64_image, bind.
  destruct (Env_base64_decode key self) as [[decoded|e0] self'];
    cbn [fst]; split.
  - intros e He. discriminate.
  - intros d Hd. inversion Hd; subst. unfold lift, convert_image. cbn [fst].
    now destruct (lib_Image_open d).
  - intros e He. inversion He; subst. reflexivity.
  - intros d Hd. discriminate.
Qed.

(** [timedelta] reads its number as [int] does: when it returns, [int]
    returns the number of seconds it was built from; and text that [int]
    rejects makes it raise the "not a valid timedelta" error. *)
Theorem timedelta_reads_an_int (key : string) (self : Env) :
  (forall delta, fst (Env_timedelta key self) = Ok delta ->
     exists n, fst (Env_int key self) = Ok n /\ lib_timedelta n = Ok delta)
  /\ (forall text, fst (Env_str key self) = Ok (VStr text) ->
        Py.int_of_str int_max_str_digits text = None ->
        fst (Env_timedelta key self)
          = Raise (EnvParseError (NotValidTimedelta (VStr text) key))).
Proof.
  unfold Env_timedelta.
  rewrite (resolve_then Gtimedelta key _ self eq_refl).
  rewrite (Env_int_run key self Gtimedelta eq_refl), Env_str_run. cbn [fst].
  change (resolve self Gstr key) with (resolve self Gtimedelta key).
  destruct (resolve self Gtimedelta key) as [value|e0]; cbn [rbind]; split;
    try discriminate.
  - intros delta. unfold convert_timedelta, convert_int, conint.
    destruct (py_int value) as [n|e1]; cbn [rbind try_except].
    + intros Hd. exists n. split; [reflexivity|].
      destruct (lib_timedelta n) as [d|e2]; cbn [try_except] in Hd.
      * exact Hd.
      * destruct (is_ValueError e2); discriminate.
    + destruct (is_ValueError e1); discriminate.
  - intros text Hv Hbad. inversion Hv; subst.
    unfold convert_timedelta. cbn [py_int]. rewrite Hbad. reflexivity.
Qed.

(** Without an override, the getters that stay inside the module ([str],
    [bool], [list] with a non-empty delimiter, [dict], [base64_decode])
    never raise anything but [EnvParseError]; neither do [int] and [port],
    which on text do not need a library either. *)
Theorem only_EnvParseError_without_override (g : getter) (key : string)
    (self : Env) :
  library_free g = true ->
  custom_parsers self !! key = None ->
  (exists v, fst (call g key self) = Ok v)
  \/ (exists m, fst (call g key self) = Raise (EnvParseError m)).
Proof.
  intros Hfree Hnone. rewrite call_run. cbn [fst]. unfold resolve.
  rewrite Hnone. cbn [apply_override].
  destruct (env_values self !! key) as [raw|]; [|right; eauto].
  cbn [rbind].
  assert (Hint : (exists n, convert_int key (VStr raw) = Ok n)
                 \/ exists m, convert_int key (VStr raw) = Raise (EnvParseError m)).
  { unfold convert_int, conint. cbn [py_int].
    destruct (Py.int_of_str _ raw); cbn; [left; eauto|right; eauto]. }
  destruct g; try discriminate; cbn [convert override_input].
  - left; eauto.
  - destruct Hint as [[n ->]|[m ->]]; cbn; [left; eauto|right; eauto].
  - unfold convert_bool.
    destruct (value_in _ ["true"; "1"; "yes"]); [left; eauto|].
    destruct (value_in _ ["false"; "0"; "no"]); [left; eauto|right; eauto].
  - destruct delimiter as [|c delimiter]; [discriminate|]. left.
    unfold convert_list, method_split, Py.split. cbn. eauto.
  - unfold convert_dict.
    destruct (rbind _ _) as [d|e]; cbn; [left; eauto|right; eauto].
  - rewrite convert_base64_text.
    destruct (Base64.isascii raw); [|right; eauto].
    destruct (Base64.scan _ _); cbn; [left; eauto|right; eauto].
  - destruct Hint as [[n ->]|[m ->]]; cbn; [|right; eauto].
    unfold check_port.
    destruct ((1 <=? n) && (n <=? 65535)); cbn; [left; eauto|right; eauto].
Qed.

Lemma convert_bool_outcomes (key : string) (value : pyval) :
  (convert_bool key value = Ok true
     <-> exists s, value = VStr s /\ In s ["true"; "1"; "yes"])
  /\ (convert_bool key value = Ok false
     <-> exists s, value = VStr s /\ In s ["false"; "0"; "no"])
  /\ ((exists b, convert_bool key value = Ok b)
      \/ convert_bool key value
           = Raise (EnvParseError (NotValidBoolean value key))).
Proof.
  assert (Hin : forall s options,
            existsb (String.eqb s) options = true <-> In s options).
  { intros s options. rewrite existsb_exists. split.
    - intros (x & Hx & Heq). apply String.eqb_eq in Heq. now subst.
    - intros Hs. exists s. split; [exact Hs|]. apply String.eqb_refl. }
  unfold convert_bool.
  destruct value as [s| | | | | | |];
    try (cbn [value_in]; repeat split;
         first [discriminate | intros (s' & Hs' & _); discriminate
               | now right]).
  cbn [value_in].
  destruct (existsb (String.eqb s) ["true"; "1"; "yes"]) eqn:Ht.
  - apply Hin in Ht. repeat split; eauto.
    + intros Hf. discriminate.
    + intros (s' & Hs' & Hf). inversion Hs'; subst s'.
      cbn in Ht, Hf. intuition (subst; discriminate).
  - destruct (existsb (String.eqb s) ["false"; "0"; "no"]) eqn:Hf.
    + apply Hin in Hf. repeat split; eauto.
      * intros H. discriminate.
      * intros (s' & Hs' & Hin'). inversion Hs'; subst s'.
        apply Hin in Hin'. congruence.
    + repeat split; try discriminate; try (now right).
      * intros (s' & Hs' & Hin'). inversion Hs'; subst s'.
        apply Hin in Hin'. congruence.
      * intros (s' & Hs' & Hin'). inversion Hs'; subst s'.
        apply Hin in Hin'. congruence.
Qed.

(** [bool] without an override is case-insensitive: it returns [True]
    exactly when the stored text, lower-cased, is [true], [1] or [yes],
    [False] exactly when it is [false], [0] or [no], and raises the
    "not a valid boolean" error otherwise.  The output of an override is
    compared as it is: only the exact lower-case words are accepted, and an
    object that is not text is rejected with the same error. *)
Theorem bool_getter_outcomes (key raw : string) (self : Env) :
  env_values self !! key = Some raw ->
  (custom_parsers self !! key = None ->
     (fst (Env_bool key self) = Ok true
        <-> In (Py.lower raw) ["true"; "1"; "yes"])
     /\ (fst (Env_bool key self) = Ok false
        <-> In (Py.lower raw) ["false"; "0"; "no"])
     /\ ((exists b, fst (Env_bool key self) = Ok b)
         \/ fst (Env_bool key self)
              = Raise (EnvParseError (NotValidBoolean (VStr (Py.lower raw)) key))))
  /\ (forall f value,
        custom_parsers self !! key = Some (Callable f) ->
        f (Py.lower raw) = Ok value ->
        (fst (Env_bool key self) = Ok true
           <-> exists s, value = VStr s /\ In s ["true"; "1"; "yes"])
        /\ (fst (Env_bool key self) = Ok false
           <-> exists s, value = VStr s /\ In s ["false"; "0"; "no"])
        /\ ((exists b, fst (Env_bool key self) = Ok b)
            \/ fst (Env_bool key self)
                 = Raise (EnvParseError (NotValidBoolean value key)))).
Proof.
  intros Hraw. rewrite Env_bool_run. cbn [fst]. unfold resolve.
  rewrite Hraw. cbn [override_input]. split.
  - intros ->. cbn [apply_override rbind].
    destruct (convert_bool_outcomes key (VStr (Py.lower raw)))
      as (Ht & Hf & Hany).
    split; [|split; [|exact Hany]].
    + rewrite Ht. split.
      * intros (s & Hs & Hin). now inversion Hs; subst.
      * intros Hin. eauto.
    + rewrite Hf. split.
      * intros (s & Hs & Hin). now inversion Hs; subst.
      * intros Hin. eauto.
  - intros f value -> Hv. cbn [apply_override]. rewrite Hv. cbn [rbind].
    apply convert_bool_outcomes.
Qed.

End GetterFacts.

(** * Further properties of the loader *)

Section LoaderFacts.

Lemma first_eq_decompose (s : string) :
  Py.has_char "=" s = true ->
  exists key value, s = key +:+ "=" +:+ value /\ Py.has_char "=" key = false.
Proof.
  induction s as [|c s IH]; [discriminate|]. cbn [Py.has_char].
  destruct (Ascii.eqb c "=") eqn:Hc.
  - intros _. apply Ascii.eqb_eq in Hc as ->. now exists "", s.
  - cbn [orb]. intros Hs. destruct (IH Hs) as (key & value & -> & Hkey).
    exists (String c key), value. split; [reflexivity|].
    cbn [Py.has_char]. now rewrite Hc, Hkey.
Qed.

(** What the loader does with a line: skip it, store it, or stop. *)
Lemma line_kind (line : string) :
  (Py.strip line = "" \/ Py.startswith "#" line = true)
  \/ (exists key value,
        Py.startswith "#" line = false
        /\ Py.strip line = key +:+ "=" +:+ value
        /\ Py.has_char "=" key = false)
  \/ (Py.strip line <> ""
      /\ Py.startswith "#" line = false
      /\ Py.has_char "=" (Py.strip line) = false).
Proof.
  destruct (Py.startswith "#" line) eqn:Hhash; [left; now right|].
  destruct (Py.strip line) as [|c t] eqn:Hstrip; [left; now left|].
  right. destruct (Py.has_char "=" (String c t)) eqn:Heq.
  - left. destruct (first_eq_decompose _ Heq) as (key & value & Hs & Hkey).
    exists key, value. split; [reflexivity|]. split; [exact Hs|exact Hkey].
  - right. split; [discriminate|]. split; reflexivity.
Qed.

Lemma has_char_append (c : ascii) (s t : string) :
  Py.has_char c (s +:+ String c t) = true.
Proof.
  induction s as [|x s IH].
  - rewrite append_nil_l. cbn [Py.has_char]. now rewrite Ascii.eqb_refl.
  - rewrite append_cons. cbn [Py.has_char]. now rewrite IH, orb_true_r.
Qed.

Lemma load_lines_outcome (lines : list string) (d : gmap string string) :
  ((exists m, load_lines lines d = Ok m)
   <-> Forall (fun line =>
                 Py.strip line = "" \/ Py.startswith "#" line = true
                 \/ Py.has_char "=" (Py.strip line) = true) lines)
  /\ (load_lines lines d = Raise ValueError
      <-> Exists (fun line =>
                    Py.strip line <> "" /\ Py.startswith "#" line = false
                    /\ Py.has_char "=" (Py.strip line) = false) lines)
  /\ ((exists m, load_lines lines d = Ok m)
      \/ load_lines lines d = Raise ValueError).
Proof.
  revert d. induction lines as [|line lines IH]; intros d.
  - split; [|split].
    + split; [constructor|intros _; now exists d].
    + split; [discriminate|intros H; inversion H].
    + left. now exists d.
  - destruct (line_kind line)
      as [Hskip|[(key & value & Hhash & Hline & Hkey)|(Hne & Hhash & Hno)]].
    + rewrite (load_lines_skip line lines d Hskip).
      destruct (IH d) as (Hok & Hbad & Hany).
      split; [|split; [|exact Hany]].
      * rewrite Hok. split.
        -- intros Hall. constructor; [tauto|exact Hall].
        -- intros Hall. now inversion Hall.
      * rewrite Hbad. split.
        -- intros Hex. now right.
        -- intros Hex. inversion Hex as [? ? (Hne & Hhash & _)|]; subst;
             [|assumption].
           destruct Hskip; congruence.
    + rewrite (load_lines_assign line key value lines d Hhash Hline Hkey).
      destruct (IH (<[key := value]> d)) as (Hok & Hbad & Hany).
      split; [|split; [|exact Hany]].
      * rewrite Hok. split.
        -- intros Hall. constructor; [|exact Hall].
           right; right. rewrite Hline. apply (has_char_append "=").
        -- intros Hall. now inversion Hall.
      * rewrite Hbad. split.
        -- intros Hex. now right.
        -- intros Hex. inversion Hex as [? ? (_ & _ & Hno)|]; subst;
             [|assumption].
           rewrite Hline in Hno.
           change ("=" +:+ value) with (String "=" value) in Hno.
           now rewrite has_char_append in Hno.
    + rewrite (load_lines_malformed line lines d Hne Hhash Hno).
      split; [|split; [|now right]].
      * split; [intros [m Hm]; discriminate|].
        intros Hall. inversion Hall as [|? ? [H|[H|H]] _]; subst; congruence.
      * split; [|reflexivity]. intros _. left. tauto.
Qed.

(** What construction does with the file.  When [open] raises
    [FileNotFoundError], construction raises [EnvParseError] "Env file ...
    does not exist".  When the file opens and reads as text, construction
    succeeds, with an empty override registry, exactly when every line is
    blank, begins with [#], or has an equals sign; it raises [ValueError]
    exactly when some line is none of these; and these are then its only
    two outcomes. *)
Theorem opened_file_outcomes
    (fs : string -> option string) (values : gmap string string) :
  let env_file := default ".env" (values !! "env_file") in
  (fs env_file = None ->
     Env_init fs values = Raise (EnvParseError (FileDoesNotExist env_file)))
  /\ (forall text, fs env_file = Some text ->
        ((exists self, Env_init fs values = Ok self /\ custom_parsers self = ∅)
         <-> Forall (fun line =>
                       Py.strip line = "" \/ Py.startswith "#" line = true
                       \/ Py.has_char "=" (Py.strip line) = true)
                    (Py.readlines text))
        /\ (Env_init fs values = Raise ValueError
            <-> Exists (fun line =>
                          Py.strip line <> ""
                          /\ Py.startswith "#" line = false
                          /\ Py.has_char "=" (Py.strip line) = false)
                       (Py.readlines text))
        /\ ((exists self, Env_init fs values = Ok self)
            \/ Env_init fs values = Raise ValueError)).
Proof.
  cbn zeta. unfold Env_init, _load_env_file. split.
  - intros ->. reflexivity.
  - intros text ->.
    destruct (load_lines_outcome (Py.readlines text) ∅) as (Hok & Hbad & Hany).
    split; [|split].
    + rewrite <- Hok. split.
      * intros (self & Hself & _).
        destruct (load_lines _ ∅) as [m|e]; [eauto|discriminate].
      * intros [m ->]. cbn. eexists. split; reflexivity.
    + rewrite <- Hbad.
      destruct (load_lines _ ∅) as [m|e]; cbn; [split; discriminate|].
      split; intros H; inversion H; reflexivity.
    + destruct Hany as [[m ->]| ->]; cbn; [left; eauto|now right].
Qed.

(** Nothing is stored that is not in the file. *)
Lemma load_lines_provenance (lines : list string) (d m : gmap string string)
    (key value : string) :
  load_lines lines d = Ok m ->
  m !! key = Some value ->
  d !! key = Some value
  \/ exists line,
       In line lines
       /\ Py.startswith "#" line = false
       /\ Py.strip line = key +:+ "=" +:+ value
       /\ Py.has_char "=" key = false.
Proof.
  revert d. induction lines as [|line lines IH]; intros d Hload Hm.
  - inversion Hload; subst. now left.
  - destruct (line_kind line)
      as [Hskip|[(k & v & Hhash & Hline & Hk)|(Hne & Hhash & Hno)]].
    + rewrite (load_lines_skip line lines d Hskip) in Hload.
      destruct (IH d Hload Hm) as [Hd|(l & Hin & Hl)]; [now left|].
      right. exists l. split; [now right|exact Hl].
    + rewrite (load_lines_assign line k v lines d Hhash Hline Hk) in Hload.
      destruct (IH _ Hload Hm) as [Hd|(l & Hin & Hl)].
      * destruct (decide (k = key)) as [->|Hne].
        -- rewrite lookup_insert_eq in Hd. inversion Hd; subst v.
           right. exists line. split; [now left|]. auto.
        -- rewrite lookup_insert_ne in Hd by exact Hne. now left.
      * right. exists l. split; [now right|exact Hl].
    + rewrite (load_lines_malformed line lines d Hne Hhash Hno) in Hload.
      discriminate.
Qed.

End LoaderFacts.

(** * Trimming *)

Section StripFacts.
Variable space : ascii -> bool.

Lemma lstrip_length (s : string) :
  (String.length (Py.lstrip_with space s) <= String.length s)%nat.
Proof.
  induction s as [|c s IH]; cbn [Py.lstrip_with]; [lia|].
  destruct (space c); cbn [String.length]; lia.
Qed.

Lemma lstrip_idempotent (s : string) :
  Py.lstrip_with space (Py.lstrip_with space s) = Py.lstrip_with space s.
Proof.
  induction s as [|c s IH]; [reflexivity|]. cbn [Py.lstrip_with].
  destruct (space c) eqn:Hc; [exact IH|]. cbn [Py.lstrip_with]. now rewrite Hc.
Qed.

Lemma rstrip_cons_nonspace (c : ascii) (s : string) :
  space c = false ->
  Py.rstrip_with space (String c s) = String c (Py.rstrip_with space s).
Proof.
  intros Hc. cbn [Py.rstrip_with].
  destruct (Py.rstrip_with space s); [now rewrite Hc|reflexivity].
Qed.

Lemma rstrip_cons_kept (c : ascii) (s : string) :
  Py.rstrip_with space s <> "" ->
  Py.rstrip_with space (String c s) = String c (Py.rstrip_with space s).
Proof.
  intros Hs. cbn [Py.rstrip_with].
  destruct (Py.rstrip_with space s); [contradiction|reflexivity].
Qed.

Lemma rstrip_idempotent (s : string) :
  Py.rstrip_with space (Py.rstrip_with space s) = Py.rstrip_with space s.
Proof.
  induction s as [|c s IH]; [reflexivity|]. cbn [Py.rstrip_with].
  destruct (Py.rstrip_with space s) as [|x r] eqn:Hr.
  - destruct (space c) eqn:Hc; [reflexivity|].
    cbn [Py.rstrip_with]. now rewrite Hc.
  - rewrite rstrip_cons_kept; rewrite IH; [reflexivity|discriminate].
Qed.

Lemma lstrip_fixed_rstrip (t : string) :
  Py.lstrip_with space t = t ->
  Py.lstrip_with space (Py.rstrip_with space t) = Py.rstrip_with space t.
Proof.
  destruct t as [|c t]; [reflexivity|]. cbn [Py.lstrip_with].
  destruct (space c) eqn:Hc.
  - intros Hfix. pose proof (lstrip_length t) as Hlen.
    rewrite Hfix in Hlen. cbn [String.length] in Hlen. lia.
  - intros _. rewrite (rstrip_cons_nonspace _ _ Hc).
    cbn [Py.lstrip_with]. now rewrite Hc.
Qed.

(** A trimmed text has nothing left to trim, on either side. *)
Lemma strip_trimmed (s : string) :
  Py.lstrip_with space (Py.strip_with space s) = Py.strip_with space s
  /\ Py.rstrip_with space (Py.strip_with space s) = Py.strip_with space s.
Proof.
  unfold Py.strip_with. split.
  - apply lstrip_fixed_rstrip, lstrip_idempotent.
  - apply rstrip_idempotent.
Qed.

Lemma lstrip_append_nonspace (k t : string) (c : ascii) :
  space c = false ->
  Py.lstrip_with space (k +:+ String c t)
  = Py.lstrip_with space k +:+ String c t.
Proof.
  intros Hc. induction k as [|x k IH].
  - rewrite !append_nil_l. cbn [Py.lstrip_with]. now rewrite Hc.
  - rewrite append_cons. cbn [Py.lstrip_with].
    destruct (space x); [exact IH|]. now rewrite append_cons.
Qed.

Lemma rstrip_append_nonspace (k v : string) (c : ascii) :
  space c = false ->
  Py.rstrip_with space (k +:+ String c v)
  = k +:+ String c (Py.rstrip_with space v).
Proof.
  intros Hc. induction k as [|x k IH].
  - rewrite !append_nil_l. now apply rstrip_cons_nonspace.
  - rewrite !append_cons. rewrite rstrip_cons_kept; rewrite IH.
    + reflexivity.
    + destruct k; discriminate.
Qed.

End StripFacts.

Lemma append_length (s t : string) :
  String.length (s +:+ t) = (String.length s + String.length t)%nat.
Proof.
  induction s as [|c s IH]; [reflexivity|].
  rewrite append_cons. cbn [String.length]. now rewrite IH.
Qed.

Lemma append_cancel_r (a b r : string) : a +:+ r = b +:+ r -> a = b.
Proof.
  revert b. induction a as [|x a IH]; intros [|y b] Heq.
  - reflexivity.
  - apply (f_equal String.length) in Heq.
    rewrite append_nil_l, append_cons in Heq. cbn [String.length] in Heq.
    rewrite append_length in Heq. lia.
  - apply (f_equal String.length) in Heq.
    rewrite append_nil_l, append_cons in Heq. cbn [String.length] in Heq.
    rewrite append_length in Heq. lia.
  - rewrite !append_cons in Heq. inversion Heq; subst. f_equal. now apply IH.
Qed.

Lemma append_cancel_l (a s t : string) : a +:+ s = a +:+ t -> s = t.
Proof.
  induction a as [|x a IH]; [now rewrite !append_nil_l|].
  rewrite !append_cons. intros Heq. inversion Heq. now apply IH.
Qed.

(** Every entry of a freshly built store comes from a line of the file,
    a line that does not begin with [#] and whose trimmed text is the key,
    an equals sign, the value.  Hence a stored key has no equals sign and
    no whitespace in front, and a stored value no whitespace at its end. *)
Theorem stored_entries_come_from_lines
    (fs : string -> option string) (values : gmap string string)
    (text key value : string) (self : Env) :
  fs (default ".env" (values !! "env_file")) = Some text ->
  Env_init fs values = Ok self ->
  env_values self !! key = Some value ->
  (exists line,
     In line (Py.readlines text)
     /\ Py.startswith "#" line = false
     /\ Py.strip line = key +:+ "=" +:+ value)
  /\ Py.has_char "=" key = false
  /\ Py.lstrip_with Py.isspace key = key
  /\ Py.rstrip_with Py.isspace value = value.
Proof.
  intros Hfs Hinit Hentry. unfold Env_init, _load_env_file in Hinit.
  rewrite Hfs in Hinit.
  destruct (load_lines (Py.readlines text) ∅) as [m|e] eqn:Hload;
    [|discriminate].
  inversion Hinit; subst self; clear Hinit. cbn [env_values] in Hentry.
  destruct (load_lines_provenance _ _ _ _ _ Hload Hentry)
    as [Hempty|(line & Hin & Hhash & Hline & Hkey)].
  { rewrite lookup_empty in Hempty. discriminate. }
  split; [exists line; auto|]. split; [exact Hkey|].
  destruct (strip_trimmed Py.isspace line) as [Hl Hr].
  fold (Py.strip line) in Hl, Hr. rewrite Hline in Hl, Hr.
  change ("=" +:+ value) with (String "=" value) in Hl, Hr.
  rewrite lstrip_append_nonspace in Hl by reflexivity.
  rewrite rstrip_append_nonspace in Hr by reflexivity.
  split.
  - now apply append_cancel_r in Hl.
  - apply append_cancel_l in Hr. injection Hr as Hr. exact Hr.
Qed.

(** * Lists and dictionaries *)

Section Collections.

Lemma prefix_single (c x : ascii) (s : string) :
  String.prefix (String c "") (String x s) = Ascii.eqb x c.
Proof.
  cbn [String.prefix]. destruct (ascii_dec c x) as [Heq|Hne].
  - subst x. rewrite Ascii.eqb_refl. now destruct s.
  - symmetry. apply Ascii.eqb_neq. congruence.
Qed.

Lemma cons_head_length (c : ascii) (pieces : list string) :
  pieces <> [] -> length (Py.cons_head c pieces) = length pieces.
Proof. destruct pieces; [contradiction|reflexivity]. Qed.

(** Splitting on one character gives one piece more than there are
    occurrences of it. *)
Lemma split_go_single_length (c : ascii) (s : string) :
  length (Py.split_go (String c "") None 0 s) = S (count_char c s).
Proof.
  induction s as [|x s IH]; [reflexivity|].
  cbn [Py.split_go Py.may_split andb count_char].
  rewrite prefix_single. destruct (Ascii.eqb x c).
  - cbn [Py.spend String.length Nat.pred length]. now rewrite IH.
  - rewrite cons_head_length by apply split_go_nonempty. now rewrite IH.
Qed.

(** What [Env_list] returns is never the empty list, and each item is
    trimmed: it has no whitespace left at its start or at its end. *)
Theorem list_items_are_trimmed (key delimiter : string) (self : Env)
    (items : list string) :
  fst (Env_list key delimiter self) = Ok items ->
  items <> []
  /\ Forall (fun item =>
               Py.lstrip_with Py.isspace item = item
               /\ Py.rstrip_with Py.isspace item = item) items.
Proof.
  rewrite Env_list_run. cbn [fst].
  destruct (resolve self (Glist delimiter) key) as [value|e];
    [|discriminate].
  cbn [rbind]. unfold convert_list, method_split.
  destruct value as [text| | | | | | |]; try discriminate.
  unfold Py.split. destruct delimiter as [|c delimiter]; [discriminate|].
  cbn [rbind]. intros Hitems. inversion Hitems; subst items; clear Hitems.
  pose proof (split_go_nonempty (String c delimiter) None 0 text) as Hne.
  destruct (Py.split_go (String c delimiter) None 0 text) as [|p ps];
    [contradiction|].
  split; [discriminate|].
  apply Forall_forall. intros item Hitem.
  apply list_elem_of_In, in_map_iff in Hitem as (piece & <- & _).
  apply strip_trimmed.
Qed.

(** With a one-character delimiter, [Env_list] on text returns one item
    more than the text has delimiters; on the empty text, one empty item. *)
Theorem list_length_counts_delimiters (key text : string) (c : ascii)
    (self : Env) :
  fst (Env_str key self) = Ok (VStr text) ->
  exists items,
    fst (Env_list key (String c "") self) = Ok items
    /\ length items = S (count_char c text)
    /\ (text = "" -> items = [""]).
Proof.
  rewrite Env_str_run, Env_list_run. cbn [fst]. intros Hres.
  change (resolve self Gstr key)
    with (resolve self (Glist (String c "")) key) in Hres.
  rewrite Hres. cbn [rbind]. unfold convert_list, method_split, Py.split.
  cbn [rbind]. eexists. split; [reflexivity|]. split.
  - rewrite length_map. apply split_go_single_length.
  - intros ->. reflexivity.
Qed.

(** *** [Env_dict] *)

Lemma split_each_all (sep : string) (items : list string) :
  sep <> "" ->
  split_each sep items = Ok (map (Py.split_go sep None 0) items).
Proof.
  intros Hsep. induction items as [|item items IH]; [reflexivity|].
  cbn [split_each map]. unfold Py.split at 1.
  destruct sep; [contradiction|]. cbn [rbind]. now rewrite IH.
Qed.

Lemma dict_of_pairs_outcome (pairs : list (list string)) (d : gmap string string) :
  ((exists m, dict_of_pairs pairs d = Ok m)
   <-> Forall (fun pair => length pair = 2%nat) pairs)
  /\ ((exists m, dict_of_pairs pairs d = Ok m)
      \/ dict_of_pairs pairs d = Raise ValueError).
Proof.
  revert d. induction pairs as [|pair pairs IH]; intros d.
  - split; [|left; now exists d].
    split; [constructor|intros _; now exists d].
  - destruct pair as [|k [|v [|x pair]]]; cbn [dict_of_pairs];
      try (split; [|now right];
           split; [intros [m Hm]; discriminate|];
           intros Hall; inversion Hall; subst; discriminate).
    destruct (IH (<[k := v]> d)) as (Hok & Hany).
    split; [|exact Hany]. rewrite Hok. split.
    + intros Hall. now constructor.
    + intros Hall. now inversion Hall.
Qed.

Lemma dict_of_pairs_provenance (pairs : list (list string))
    (d m : gmap string string) (k v : string) :
  dict_of_pairs pairs d = Ok m ->
  m !! k = Some v ->
  d !! k = Some v \/ In [k; v] pairs.
Proof.
  revert d. induction pairs as [|pair pairs IH]; intros d Hd Hm.
  - inversion Hd; subst. now left.
  - destruct pair as [|k' [|v' [|x pair]]]; cbn [dict_of_pairs] in Hd;
      try discriminate.
    destruct (IH _ Hd Hm) as [Hins|Hin]; [|right; now right].
    destruct (decide (k' = k)) as [->|Hne].
    + rewrite lookup_insert_eq in Hins. inversion Hins; subst.
      right. now left.
    + rewrite lookup_insert_ne in Hins by exact Hne. now left.
Qed.

(** [Env_dict] either returns a dictionary or raises the "not a valid
    dictionary format" error, whatever object the override returned.  On
    text it succeeds exactly when every comma-separated item has exactly
    one colon, and every entry of the result is one of those items: key,
    colon, value. *)
Theorem dict_getter_outcomes (key : string) (self : Env) (value : pyval) :
  fst (Env_str key self) = Ok value ->
  ((exists d, fst (Env_dict key self) = Ok d)
   \/ fst (Env_dict key self)
        = Raise (EnvParseError (NotValidDict value key)))
  /\ (forall text, value = VStr text ->
        ((exists d, fst (Env_dict key self) = Ok d)
         <-> Forall (fun item => count_char ":" item = 1%nat)
                    (Py.split_go "," None 0 text))
        /\ (forall d k v,
              fst (Env_dict key self) = Ok d -> d !! k = Some v ->
              In (k +:+ ":" +:+ v) (Py.split_go "," None 0 text))).
Proof.
  rewrite Env_str_run, Env_dict_run. cbn [fst]. intros Hres.
  change (resolve self Gstr key) with (resolve self Gdict key) in Hres.
  rewrite Hres. cbn [rbind]. split.
  - unfold convert_dict.
    destruct (rbind (method_split value ",") _) as [d|e]; cbn;
      [left; eauto|now right].
  - intros text ->. unfold convert_dict, method_split, Py.split.
    cbn [rbind]. rewrite split_each_all by discriminate. cbn [rbind].
    set (items := Py.split_go "," None 0 text).
    destruct (dict_of_pairs_outcome
                (map (Py.split_go ":" None 0) items) ∅) as (Hok & Hany).
    assert (Hcount : Forall (fun pair => length pair = 2%nat)
                       (map (Py.split_go ":" None 0) items)
                     <-> Forall (fun item => count_char ":" item = 1%nat) items).
    { clearbody items. clear. induction items as [|item items IH].
      - split; constructor.
      - cbn [map]. split; intros Hall; inversion Hall; subst;
          (constructor; [|now apply IH]).
        + rewrite split_go_single_length in *. lia.
        + rewrite split_go_single_length. lia. }
    split.
    + rewrite <- Hcount, <- Hok.
      destruct (dict_of_pairs _ ∅) as [m|e]; cbn.
      * split; eauto.
      * split; intros [m Hm]; discriminate.
    + intros d k v Hd Hentry.
      destruct (dict_of_pairs (map (Py.split_go ":" None 0) items) ∅)
        as [m|e] eqn:Hdict; cbn in Hd; [|discriminate].
      inversion Hd; subst d.
      destruct (dict_of_pairs_provenance _ _ _ _ _ Hdict Hentry)
        as [Hempty|Hin].
      { rewrite lookup_empty in Hempty. discriminate. }
      apply in_map_iff in Hin as (item & Hsplit & Hitem).
      pose proof (join_split_go ":" None 0 item ltac:(discriminate)) as Hjoin.
      rewrite Hsplit in Hjoin. cbn in Hjoin. now rewrite Hjoin.
Qed.

End Collections.

(** * More on base64 *)

Section Base64More.
Import Base64.

Lemma scan_significant (st : state) (data : list Z) :
  scan st data = scan st (significant data).
Proof.
  revert st. induction data as [|c data IH]; intros st; [reflexivity|].
  destruct (c =? PAD) eqn:Hpad.
  - apply Z.eqb_eq in Hpad as ->. rewrite significant_pad.
    cbn [scan]. change (PAD =? PAD) with true. cbn match.
    destruct (Nat.leb 2 (quad_pos st)); [|apply IH].
    destruct (Nat.leb 4 (quad_pos st + S (pads st))); [reflexivity|apply IH].
  - destruct (table_a2b c) as [v|] eqn:Htab.
    + assert (Hd : is_data c = true) by (unfold is_data; now rewrite Htab).
      rewrite (significant_data _ _ Hd). cbn [scan]. rewrite Hpad, Htab.
      destruct (shift_in st v) as [st' o]. now rewrite IH.
    + assert (Hd : is_data c = false) by (unfold is_data; now rewrite Htab).
      rewrite (significant_junk _ _ Hpad Hd). cbn [scan].
      rewrite Hpad, Htab. apply IH.
Qed.

(** Only the alphabet characters and the pads of an ASCII text matter:
    two texts that agree once their other characters are dropped decode
    alike, so the getter returns the same bytes for both or fails for
    both. *)
Theorem base64_depends_on_significant_characters
    (key key' text text' : string) (self self' : Env) :
  fst (Env_str key self) = Ok (VStr text) ->
  fst (Env_str key' self') = Ok (VStr text') ->
  isascii text = true ->
  isascii text' = true ->
  significant (codes text) = significant (codes text') ->
  b64decode (VStr text) = b64decode (VStr text')
  /\ (forall bs, fst (Env_base64_decode key self) = Ok bs
                 <-> fst (Env_base64_decode key' self') = Ok bs).
Proof.
  rewrite !Env_str_run,
    (Env_base64_decode_run key self Gstr eq_refl),
    (Env_base64_decode_run key' self' Gstr eq_refl).
  cbn [fst]. intros -> -> Hascii Hascii' Hsig. cbn [rbind].
  assert (Hscan : scan start (codes text) = scan start (codes text')).
  { rewrite (scan_significant start (codes text)), Hsig.
    symmetry. apply scan_significant. }
  split.
  - unfold b64decode, a2b_base64. rewrite Hascii, Hascii'.
    fold (codes text). fold (codes text'). now rewrite Hscan.
  - intros bs. rewrite !convert_base64_text, Hascii, Hascii', Hscan.
    destruct (scan start (codes text')); split; intros H;
      first [exact H | discriminate].
Qed.

Lemma list_byte_of_string_append (s t : string) :
  list_byte_of_string (s +:+ t)
  = list_byte_of_string s ++ list_byte_of_string t.
Proof.
  induction s as [|c s IH]; [reflexivity|].
  rewrite append_cons. unfold list_byte_of_string in *.
  cbn [list_ascii_of_string map app]. now rewrite IH.
Qed.

Lemma isascii_append (s t : string) :
  isascii (s +:+ t) = isascii s && isascii t.
Proof.
  induction s as [|c s IH]; [reflexivity|].
  rewrite append_cons. cbn [isascii]. now rewrite IH, andb_assoc.
Qed.

(** After the padding that ends an encoding, the scanner reads no more. *)
Lemma scan_encode_then_more (bs more : list Z) :
  Forall (fun a => 0 <= a < 256) bs ->
  (length bs mod 3 <> 0)%nat ->
  scan start (encode bs ++ more) = Some bs.
Proof.
  remember (length bs) as n eqn:Hn. revert bs Hn.
  induction n as [n IH] using lt_wf_ind. intros bs Hn Hbs Hmod.
  destruct bs as [|a [|b [|c rest]]].
  - cbn in Hn. subst n. cbn in Hmod. contradiction.
  - inversion Hbs as [|? ? Ha _]; subst.
    destruct (first_pair_facts a 0 Ha ltac:(lia)) as (H1 & H2 & Hbyte & _).
    cbn [encode app]. rewrite (scan_alphabet_char _ _ _ H1).
    unfold start at 1 2. cbn [shift_in quad_pos leftchar fst snd].
    rewrite (scan_alphabet_char _ _ _ H2).
    cbn [shift_in quad_pos leftchar fst snd].
    cbn [scan]. change (PAD =? PAD) with true.
    cbn [quad_pos pads Nat.leb Nat.add emit]. cbn match.
    rewrite Hbyte. reflexivity.
  - inversion Hbs as [|? ? Ha Hbs']; subst.
    inversion Hbs' as [|? ? Hb _]; subst.
    destruct (first_pair_facts a b Ha Hb) as (H1 & H2 & Hbyte1 & Hleft).
    destruct (second_pair_facts b 0 Hb ltac:(lia)) as (H3 & _ & Hbyte2 & _).
    cbn [encode app]. rewrite (scan_alphabet_char _ _ _ H1).
    unfold start at 1 2. cbn [shift_in quad_pos leftchar fst snd].
    rewrite (scan_alphabet_char _ _ _ H2).
    cbn [shift_in quad_pos leftchar fst snd].
    rewrite (scan_alphabet_char _ _ _ H3).
    cbn [shift_in quad_pos leftchar fst snd].
    cbn [scan]. change (PAD =? PAD) with true.
    cbn [quad_pos pads Nat.leb Nat.add emit]. cbn match.
    rewrite Hbyte1, Hleft, Hbyte2. reflexivity.
  - inversion Hbs as [|? ? Ha Hbs']; subst.
    inversion Hbs' as [|? ? Hb Hbs'']; subst.
    inversion Hbs'' as [|? ? Hc Hrest]; subst.
    destruct (first_pair_facts a b Ha Hb) as (H1 & H2 & Hbyte1 & Hleft).
    destruct (second_pair_facts b c Hb Hc) as (H3 & H4 & Hbyte2 & Hbyte3).
    assert (Hmod' : (length rest mod 3 <> 0)%nat).
    { cbn [length] in Hmod.
      replace (S (S (S (length rest)))) with (length rest + 1 * 3)%nat
        in Hmod by lia.
      now rewrite Nat.Div0.mod_add in Hmod. }
    cbn [encode app]. rewrite (scan_alphabet_char _ _ _ H1).
    unfold start at 1 2. cbn [shift_in quad_pos leftchar fst snd].
    rewrite (scan_alphabet_char _ _ _ H2).
    cbn [shift_in quad_pos leftchar fst snd].
    rewrite (scan_alphabet_char _ _ _ H3).
    cbn [shift_in quad_pos leftchar fst snd].
    rewrite (scan_alphabet_char _ _ _ H4).
    cbn [shift_in quad_pos leftchar fst snd].
    change {| quad_pos := 0; leftchar := 0; pads := 0 |} with start.
    rewrite (IH (length rest) ltac:(simpl in *; lia) rest eq_refl Hrest Hmod').
    cbn [emit]. rewrite Hbyte1, Hleft, Hbyte2, Hbyte3. reflexivity.
Qed.

(** When the number of bytes is not a multiple of three, their standard
    encoding ends in padding, and whatever ASCII text follows that padding
    is ignored: the getter returns the bytes. *)
Theorem base64_ignores_text_after_padding
    (key suffix : string) (bs : list byte) (self : Env) :
  fst (Env_str key self) = Ok (VStr (standard_b64encode bs +:+ suffix)) ->
  (length bs mod 3 <> 0)%nat ->
  isascii suffix = true ->
  fst (Env_base64_decode key self) = Ok bs.
Proof.
  rewrite Env_str_run, (Env_base64_decode_run key self Gstr eq_refl).
  cbn [fst]. intros -> Hmod Hsuffix. cbn [rbind].
  assert (Hbs : Forall (fun a => 0 <= a < 256) (map Z_of_byte bs)).
  { clear. induction bs as [|b bs IH]; cbn [map]; constructor;
      [apply Z_of_byte_range|exact IH]. }
  destruct (scan_encode _ Hbs) as [_ Hascii].
  rewrite convert_base64_text, isascii_append.
  unfold standard_b64encode at 1.
  rewrite (isascii_string_of_bytes _ Hascii), Hsuffix. cbn [andb].
  unfold codes, standard_b64encode.
  rewrite list_byte_of_string_append, list_byte_of_string_of_list_byte.
  rewrite map_app, map_Z_of_byte_of_Z.
  - rewrite scan_encode_then_more; [|exact Hbs|now rewrite length_map].
    now rewrite map_byte_of_Z_of_byte.
  - eapply Forall_impl; [exact Hascii|]. intros c Hc. cbv beta in *. lia.
Qed.

End Base64More.

(** * Integers in decimal notation *)

Section DecimalFacts.

Ltac next_digit IH :=
  cbn [NilEmpty.string_of_uint Py.digits_go];
  match goal with
  | |- context [Py.digit_value ?c] =>
      let v := eval vm_compute in (Py.digit_value c) in
      change (Py.digit_value c) with v
  end;
  cbv iota beta.

Lemma digits_go_pos (d : Decimal.uint) (p : positive) :
  Py.digits_go (Z.pos p) true (NilEmpty.string_of_uint d)
  = Some (Z.pos (Pos.of_uint_acc d p)).
Proof.
  revert p. induction d as [|d IH|d IH|d IH|d IH|d IH|d IH|d IH|d IH|d IH|d IH];
    intros p; [reflexivity|..]; next_digit IH; cbn [Pos.of_uint_acc];
    match goal with
    | |- Py.digits_go ?acc true _ = Some (Z.pos (Pos.of_uint_acc _ ?q)) =>
        replace acc with (Z.pos q) by lia; apply IH
    end.
Qed.

Lemma digits_go_zero (d : Decimal.uint) (after_digit : bool) :
  (d = Decimal.Nil -> after_digit = true) ->
  Py.digits_go 0 after_digit (NilEmpty.string_of_uint d)
  = Some (Z.of_N (Pos.of_uint d)).
Proof.
  revert after_digit.
  induction d as [|d IH|d IH|d IH|d IH|d IH|d IH|d IH|d IH|d IH|d IH];
    intros after_digit Hnil.
  - rewrite Hnil by reflexivity. reflexivity.
  - next_digit IH. cbn [Pos.of_uint]. apply IH. reflexivity.
  - next_digit IH. cbn [Pos.of_uint Z.of_N]. apply (digits_go_pos d 1).
  - next_digit IH. cbn [Pos.of_uint Z.of_N]. apply (digits_go_pos d 2).
  - next_digit IH. cbn [Pos.of_uint Z.of_N]. apply (digits_go_pos d 3).
  - next_digit IH. cbn [Pos.of_uint Z.of_N]. apply (digits_go_pos d 4).
  - next_digit IH. cbn [Pos.of_uint Z.of_N]. apply (digits_go_pos d 5).
  - next_digit IH. cbn [Pos.of_uint Z.of_N]. apply (digits_go_pos d 6).
  - next_digit IH. cbn [Pos.of_uint Z.of_N]. apply (digits_go_pos d 7).
  - next_digit IH. cbn [Pos.of_uint Z.of_N]. apply (digits_go_pos d 8).
  - next_digit IH. cbn [Pos.of_uint Z.of_N]. apply (digits_go_pos d 9).
Qed.

Lemma digits_go_uint (d : Decimal.uint) :
  Py.digits_go 0 false (NilZero.string_of_uint d) = Some (Z.of_uint d).
Proof.
  unfold Z.of_uint. destruct d; [reflexivity|..];
    cbn [NilZero.string_of_uint]; apply digits_go_zero; discriminate.
Qed.

Lemma rstrip_digits (d : Decimal.uint) :
  Py.rstrip_with Py.isspace_int (NilEmpty.string_of_uint d)
  = NilEmpty.string_of_uint d.
Proof.
  induction d; [reflexivity|..]; cbn [NilEmpty.string_of_uint];
    rewrite rstrip_cons_nonspace by reflexivity; now f_equal.
Qed.

Lemma rstrip_uint (d : Decimal.uint) :
  Py.rstrip_with Py.isspace_int (NilZero.string_of_uint d)
  = NilZero.string_of_uint d.
Proof. destruct d; [reflexivity|..]; apply rstrip_digits. Qed.

Lemma uint_starts_with_digit (d : Decimal.uint) :
  exists c rest,
    NilZero.string_of_uint d = String c rest
    /\ Py.isspace_int c = false
    /\ Py.signed_digits (String c rest) = Py.digits_go 0 false (String c rest).
Proof. destruct d; do 2 eexists; repeat split. Qed.

(** [int] of the decimal notation of [n] is [n]. *)
Lemma int_of_str_str_of_int (limit : nat) (n : Z) :
  Py.within_limit limit (str_of_int n) = true ->
  Py.int_of_str limit (str_of_int n) = Some n.
Proof.
  intros Hlimit. unfold Py.int_of_str, Py.limited_int.
  assert (Hstrip : Py.strip_with Py.isspace_int (str_of_int n) = str_of_int n).
  { unfold Py.strip_with, str_of_int, NilZero.string_of_int.
    destruct (Z.to_int n) as [d|d].
    - destruct (uint_starts_with_digit d) as (c & rest & Hd & Hc & _).
      rewrite Hd at 1. cbn [Py.lstrip_with]. rewrite Hc, <- Hd.
      apply rstrip_uint.
    - cbn [Py.lstrip_with].
      change (Py.isspace_int "-") with false. cbv iota.
      rewrite rstrip_cons_nonspace by reflexivity. now rewrite rstrip_uint. }
  rewrite Hstrip, Hlimit.
  rewrite <- (DecimalZ.of_to n) at 2.
  unfold str_of_int, NilZero.string_of_int, Z.of_int.
  destruct (Z.to_int n) as [d|d].
  - destruct (uint_starts_with_digit d) as (c & rest & Hd & _ & Hsign).
    rewrite Hd, Hsign, <- Hd. apply digits_go_uint.
  - cbn [Py.signed_digits]. now rewrite digits_go_uint.
Qed.

(** [Env_int] reads decimal notation: when the resolved value is the text
    [str(n)] of an integer [n] (within the interpreter's limit on the
    number of digits), the getter returns [n]. *)
Theorem int_reads_decimal_notation {L : Library}
    (key : string) (n : Z) (self : Env) :
  fst (Env_str key self) = Ok (VStr (str_of_int n)) ->
  Py.within_limit int_max_str_digits (str_of_int n) = true ->
  fst (Env_int key self) = Ok n.
Proof.
  rewrite Env_str_run, (Env_int_run key self Gstr eq_refl). cbn [fst].
  intros -> Hlimit. cbn [rbind]. unfold convert_int. cbn [py_int].
  now rewrite (int_of_str_str_of_int _ _ Hlimit).
Qed.

(** [Env_url] returns what [urlparse] built exactly when both the scheme
    and the network location are non-empty, and raises the "not a valid
    URL" error when one of them is empty; an exception of [urlparse] is
    not caught. *)
Theorem url_needs_scheme_and_netloc {L : Library}
    (key : string) (self : Env) (value : pyval) :
  fst (Env_str key self) = Ok value ->
  (forall parsed, lib_urlparse value = Ok parsed ->
     (fst (Env_url key self) = Ok (url_object parsed)
        <-> url_scheme parsed <> "" /\ url_netloc parsed <> "")
     /\ (url_scheme parsed = "" \/ url_netloc parsed = "" ->
         fst (Env_url key self)
           = Raise (EnvParseError (NotValidURL value key))))
  /\ (forall e, lib_urlparse value = Raise e ->
        fst (Env_url key self) = Raise e).
Proof.
  unfold Env_url. rewrite Env_str_run.
  rewrite (resolve_then Gurl key _ self eq_refl). cbn [fst]. intros Hres.
  change (resolve self Gstr key) with (resolve self Gurl key) in Hres.
  rewrite Hres. cbn [rbind]. unfold convert_url. split.
  - intros parsed ->. cbn [rbind]. unfold truthy.
    destruct (url_scheme parsed) as [|c1 s1], (url_netloc parsed) as [|c2 s2];
      cbn [Py.nonempty andb];
      first
        [ split;
          [split; [intros _; split; discriminate|reflexivity]
          |intros [H|H]; discriminate]
        | split;
          [split; [discriminate|intros [H1 H2]; congruence]
          |reflexivity] ].
  - intros e ->. reflexivity.
Qed.

End DecimalFacts.

(** * From the file to a typed value *)

Section EndToEnd.
Context {L : Library}.

Lemma init_stores (fs : string -> option string) (values : gmap string string)
    (text : string) (pre post : list string) (line key value : string)
    (self : Env) :
  fs (default ".env" (values !! "env_file")) = Some text ->
  Py.readlines text = pre ++ line :: post ->
  Py.startswith "#" line = false ->
  Py.strip line = key +:+ "=" +:+ value ->
  Py.has_char "=" key = false ->
  (forall later value', In later post ->
     Py.strip later <> key +:+ "=" +:+ value') ->
  Env_init fs values = Ok self ->
  resolve self Gstr key = Ok (VStr value).
Proof.
  intros Hfs Hlines Hhash Hline Hkey Hlast Hinit.
  unfold Env_init, _load_env_file in Hinit. rewrite Hfs, Hlines in Hinit.
  rewrite load_lines_app in Hinit.
  destruct (load_lines pre ∅) as [d|e]; [|discriminate].
  cbn [rbind] in Hinit.
  rewrite (load_lines_assign _ _ _ _ _ Hhash Hline Hkey) in Hinit.
  destruct (load_lines post (<[key := value]> d)) as [m|e] eqn:Hpost;
    [|discriminate].
  inversion Hinit; subst self; clear Hinit.
  unfold resolve. cbn [env_values custom_parsers].
  rewrite (load_lines_other_keys key post _ m Hlast Hpost).
  now rewrite lookup_insert_eq, lookup_empty.
Qed.

(** A line KEY=<n> in decimal notation, not overwritten further down,
    makes [int(KEY)] return [n] on the constructed store, and [port(KEY)]
    too when [1 <= n <= 65535]; out of that range [port(KEY)] raises the
    "not a valid port number" error. *)
Theorem file_line_read_as_int
    (fs : string -> option string) (values : gmap string string)
    (text : string) (pre post : list string) (line key : string) (n : Z)
    (self : Env) :
  fs (default ".env" (values !! "env_file")) = Some text ->
  Py.readlines text = pre ++ line :: post ->
  Py.startswith "#" line = false ->
  Py.strip line = key +:+ "=" +:+ str_of_int n ->
  Py.has_char "=" key = false ->
  (forall later value', In later post ->
     Py.strip later <> key +:+ "=" +:+ value') ->
  Py.within_limit int_max_str_digits (str_of_int n) = true ->
  Env_init fs values = Ok self ->
  fst (Env_int key self) = Ok n
  /\ (1 <= n <= 65535 -> fst (Env_port key self) = Ok n)
  /\ (~ 1 <= n <= 65535 ->
      fst (Env_port key self)
        = Raise (EnvParseError (NotValidPort (VStr (str_of_int n)) key))).
Proof.
  intros Hfs Hlines Hhash Hline Hkey Hlast Hlimit Hinit.
  pose proof (init_stores _ _ _ _ _ _ _ _ _ Hfs Hlines Hhash Hline Hkey
                Hlast Hinit) as Hres.
  rewrite Env_port_run, (Env_int_run key self Gstr eq_refl). cbn [fst].
  change (resolve self Gport key) with (resolve self Gstr key).
  rewrite Hres. cbn [rbind].
  assert (Hint : convert_int key (VStr (str_of_int n)) = Ok n).
  { unfold convert_int. cbn [py_int].
    now rewrite (int_of_str_str_of_int _ _ Hlimit). }
  rewrite Hint. cbn [rbind]. unfold check_port.
  split; [reflexivity|]. split.
  - intros [H1 H2]. apply Z.leb_le in H1. apply Z.leb_le in H2.
    now rewrite H1, H2.
  - intros Hout.
    destruct ((1 <=? n) && (n <=? 65535)) eqn:Hrange; [|reflexivity].
    apply andb_true_iff in Hrange as [H1 H2].
    apply Z.leb_le in H1. apply Z.leb_le in H2. lia.
Qed.

End EndToEnd.

(** ** Concrete runs of the further properties *)

Lemma override_error_propagates_witness :
  call (L := bare_library) Gport "PORT" failing_env
  = (Raise (OtherException "RuntimeError"), failing_env).
Proof.
  apply (override_error_propagates (L := bare_library) Gport "PORT" "8080"
           (fun _ => Raise (OtherException "RuntimeError"))); reflexivity.
Defined.

Lemma other_keys_unaffected_witness :
  fst (call (L := bare_library) Gint "PORT"
         (snd (register_parser "SAMPLE_LIST" (constantly VNone) fixture)))
    = fst (call (L := bare_library) Gint "PORT" fixture)
  /\ fst (call (L := bare_library) Gint "PORT"
            (snd (set_env_value "SAMPLE_LIST" "x" fixture)))
     = fst (call (L := bare_library) Gint "PORT" fixture).
Proof.
  apply (other_keys_unaffected (L := bare_library)). discriminate.
Defined.

Lemma port_refines_int_witness :
  fst (Env_port (L := bare_library) "PORT" fixture) = Ok 8080
  /\ fst (Env_int (L := bare_library) "PORT" fixture) = Ok 8080
  /\ 1 <= 8080 <= 65535.
Proof.
  split; [reflexivity|].
  destruct (port_refines_int (L := bare_library) "PORT" fixture) as [Hok _].
  apply Hok. reflexivity.
Defined.

Lemma image_getter_after_decode_witness :
  fst (Env_base64_decode "BASE64_IMAGE" fixture)
    = Ok (list_byte_of_string "hello world")
  /\ fst (Env_base64_image (L := bare_library) "BASE64_IMAGE" fixture)
     = Raise (EnvParseError (ImageLoadError (OtherException "ImportError"))).
Proof.
  split; [vm_compute; reflexivity|].
  destruct (image_getter_after_decode (L := bare_library) "BASE64_IMAGE" fixture)
    as [_ Hok].
  rewrite (Hok (list_byte_of_string "hello world")); [reflexivity|].
  vm_compute. reflexivity.
Defined.

Lemma timedelta_reads_an_int_witness :
  fst (Env_str "IS_ACTIVE" fixture) = Ok (VStr "true")
  /\ fst (Env_timedelta (L := bare_library) "IS_ACTIVE" fixture)
     = Raise (EnvParseError (NotValidTimedelta (VStr "true") "IS_ACTIVE")).
Proof.
  split; [reflexivity|].
  destruct (timedelta_reads_an_int (L := bare_library) "IS_ACTIVE" fixture)
    as [_ Hbad].
  apply Hbad; reflexivity.
Defined.

Lemma only_EnvParseError_without_override_witness :
  (exists v, fst (call (L := bare_library) Gport "PORT" big_port_env) = Ok v)
  \/ (exists m, fst (call (L := bare_library) Gport "PORT" big_port_env)
                = Raise (EnvParseError m)).
Proof.
  apply (only_EnvParseError_without_override (L := bare_library));
    reflexivity.
Defined.

Lemma bool_getter_outcomes_witness :
  env_values fixture !! "IS_ACTIVE" = Some "true"
  /\ fst (Env_bool "IS_ACTIVE" fixture) = Ok true.
Proof.
  split; [reflexivity|].
  destruct (bool_getter_outcomes "IS_ACTIVE" "true" fixture eq_refl)
    as [Hplain _].
  destruct (Hplain eq_refl) as [Htrue _]. apply Htrue. now left.
Defined.

Lemma opened_file_outcomes_witness :
  Env_init (one_file ("A=1" +:+ NL +:+ "FOO" +:+ NL)) ∅ = Raise ValueError
  /\ exists self,
       Env_init (one_file ("A=1" +:+ NL +:+ "# note" +:+ NL)) ∅ = Ok self
       /\ custom_parsers self = ∅.
Proof.
  split.
  - destruct (opened_file_outcomes
                (one_file ("A=1" +:+ NL +:+ "FOO" +:+ NL)) ∅) as [_ Hfile].
    destruct (Hfile ("A=1" +:+ NL +:+ "FOO" +:+ NL) eq_refl) as (_ & Hbad & _).
    apply Hbad. right. left.
    split; [vm_compute; discriminate|]. split; vm_compute; reflexivity.
  - destruct (opened_file_outcomes
                (one_file ("A=1" +:+ NL +:+ "# note" +:+ NL)) ∅) as [_ Hfile].
    destruct (Hfile ("A=1" +:+ NL +:+ "# note" +:+ NL) eq_refl) as (Hok & _).
    apply Hok. constructor; [right; right; vm_compute; reflexivity|].
    constructor; [right; left; vm_compute; reflexivity|constructor].
Defined.

Lemma stored_entries_come_from_lines_witness :
  exists self,
    Env_init (one_file ("K=v " +:+ NL)) ∅ = Ok self
    /\ env_values self !! "K" = Some "v"
    /\ (exists line,
          In line (Py.readlines ("K=v " +:+ NL))
          /\ Py.startswith "#" line = false
          /\ Py.strip line = "K" +:+ "=" +:+ "v")
    /\ Py.has_char "=" "K" = false
    /\ Py.lstrip_with Py.isspace "K" = "K"
    /\ Py.rstrip_with Py.isspace "v" = "v".
Proof.
  eexists. split; [vm_compute; reflexivity|].
  split; [vm_compute; reflexivity|].
  eapply (stored_entries_come_from_lines (one_file ("K=v " +:+ NL)) ∅
            ("K=v " +:+ NL) "K" "v").
  - reflexivity.
  - vm_compute. reflexivity.
  - vm_compute. reflexivity.
Defined.

Lemma list_items_are_trimmed_witness :
  fst (Env_list "SAMPLE_LIST" "," fixture) = Ok ["1"; "2"; "3"]
  /\ ["1"; "2"; "3"] <> []
  /\ Forall (fun item =>
               Py.lstrip_with Py.isspace item = item
               /\ Py.rstrip_with Py.isspace item = item) ["1"; "2"; "3"].
Proof.
  split; [vm_compute; reflexivity|].
  apply (list_items_are_trimmed "SAMPLE_LIST" "," fixture).
  vm_compute. reflexivity.
Defined.

Lemma list_length_counts_delimiters_witness :
  exists items,
    fst (Env_list "SAMPLE_LIST" "," fixture) = Ok items
    /\ length items = S (count_char "," "1,2,3")
    /\ ("1,2,3" = "" -> items = [""]).
Proof.
  apply (list_length_counts_delimiters "SAMPLE_LIST" "1,2,3" "," fixture).
  reflexivity.
Defined.

Lemma dict_getter_outcomes_witness :
  fst (Env_str "SAMPLE_DICT" dict_env) = Ok (VStr "key1:value1,key2:value2")
  /\ exists d, fst (Env_dict "SAMPLE_DICT" dict_env) = Ok d.
Proof.
  split; [reflexivity|].
  destruct (dict_getter_outcomes "SAMPLE_DICT" dict_env
              (VStr "key1:value1,key2:value2") eq_refl) as [_ Htext].
  destruct (Htext "key1:value1,key2:value2" eq_refl) as [Hiff _].
  apply Hiff. repeat constructor.
Defined.

Lemma base64_depends_on_significant_characters_witness :
  Base64.b64decode (VStr "aGVsbG8gd29ybGQ=")
    = Base64.b64decode (VStr "aGVsbG8g d29y!bGQ=")
  /\ (forall bs,
        fst (Env_base64_decode "BASE64_IMAGE" fixture) = Ok bs
        <-> fst (Env_base64_decode "BASE64_IMAGE" wrapped_base64_env) = Ok bs).
Proof.
  apply (base64_depends_on_significant_characters
           "BASE64_IMAGE" "BASE64_IMAGE"
           "aGVsbG8gd29ybGQ=" "aGVsbG8g d29y!bGQ=" fixture wrapped_base64_env);
    vm_compute; reflexivity.
Defined.

Lemma base64_ignores_text_after_padding_witness :
  fst (Env_base64_decode "BASE64_IMAGE" trailing_base64_env)
  = Ok (list_byte_of_string "hello world").
Proof.
  apply (base64_ignores_text_after_padding "BASE64_IMAGE" "ignored").
  - vm_compute. reflexivity.
  - vm_compute. discriminate.
  - reflexivity.
Defined.

Lemma int_reads_decimal_notation_witness :
  fst (Env_int (L := bare_library) "PORT" fixture) = Ok 8080.
Proof.
  apply (int_reads_decimal_notation (L := bare_library) "PORT" 8080 fixture);
    reflexivity.
Defined.

Lemma url_needs_scheme_and_netloc_witness :
  (fst (Env_str "HOMEPAGE" url_env) = Ok (VStr "http://example.com/docs")
   /\ lib_urlparse (Library := url_library) (VStr "http://example.com/docs")
      = Ok {| url_object := VObj 0; url_scheme := "http";
              url_netloc := "example.com" |}
   /\ fst (Env_url (L := url_library) "HOMEPAGE" url_env) = Ok (VObj 0))
  /\ (fst (Env_str "HOST" url_env) = Ok (VStr "example.com")
      /\ lib_urlparse (Library := url_library) (VStr "example.com")
         = Ok {| url_object := VObj 0; url_scheme := ""; url_netloc := "" |}
      /\ fst (Env_url (L := url_library) "HOST" url_env)
         = Raise (EnvParseError (NotValidURL (VStr "example.com") "HOST")))
  /\ fst (Env_url (L := bare_library) "PORT" fixture)
     = Raise (OtherException "ImportError").
Proof.
  split; [|split].
  - split; [reflexivity|]. split; [reflexivity|].
    destruct (url_needs_scheme_and_netloc (L := url_library) "HOMEPAGE" url_env
                (VStr "http://example.com/docs") eq_refl) as [Hparsed _].
    destruct (Hparsed {| url_object := VObj 0; url_scheme := "http";
                         url_netloc := "example.com" |} eq_refl)
      as [Hiff _].
    apply Hiff. split; discriminate.
  - split; [reflexivity|]. split; [reflexivity|].
    destruct (url_needs_scheme_and_netloc (L := url_library) "HOST" url_env
                (VStr "example.com") eq_refl) as [Hparsed _].
    destruct (Hparsed {| url_object := VObj 0; url_scheme := "";
                         url_netloc := "" |} eq_refl)
      as [_ Hempty].
    apply Hempty. now left.
  - destruct (url_needs_scheme_and_netloc (L := bare_library) "PORT" fixture
                (VStr "8080") eq_refl) as [_ Hraise].
    apply Hraise. reflexivity.
Defined.

Lemma file_line_read_as_int_witness :
  exists self,
    Env_init (one_file ("# service" +:+ NL +:+ "PORT=8080" +:+ NL)) ∅ = Ok self
    /\ fst (Env_int (L := bare_library) "PORT" self) = Ok 8080
    /\ (1 <= 8080 <= 65535 ->
        fst (Env_port (L := bare_library) "PORT" self) = Ok 8080).
Proof.
  eexists. split; [vm_compute; reflexivity|].
  pose proof (file_line_read_as_int (L := bare_library)
    (one_file ("# service" +:+ NL +:+ "PORT=8080" +:+ NL)) ∅
    ("# service" +:+ NL +:+ "PORT=8080" +:+ NL)
    ["# service" +:+ NL] [] ("PORT=8080" +:+ NL) "PORT" 8080) as H.
  destruct (H _ eq_refl ltac:(vm_compute; reflexivity) eq_refl
              ltac:(vm_compute; reflexivity) eq_refl
              ltac:(intros later value' [])
              ltac:(vm_compute; reflexivity)
              ltac:(vm_compute; reflexivity)) as (Hint & Hport & _).
  split; [exact Hint|exact Hport].
Defined.
